(** * Flood hazard probability and damage engine: a shallow embedding

    The development follows the Python sources module by module:

    - [ClimateProbability]   climate_probability.py
                             (class ClimateEventAnalyzer)
    - [Isimip]               backend/isimip_probability.py
                             (class ISIMIPDataProcessor)
    - [Climada]              backend/climate_probability_climada.py
                             (classes ClimadaAPIClient, ClimadaFloodAnalyzer)
    - [Scipy]                scipy.interpolate.interp1d as the two damage
                             calculators call it
    - [DamageCalculator]     backend/flood_damage_library/core/damage_calculator.py
    - [EnhancedDamageCalculator]
                             backend/flood_damage_library/core/enhanced_damage_calculator.py
    - [Scenarios]            the concrete inputs of the examples

    The modules [ClimateProbabilityFacts], [IsimipFacts], [ClimadaFacts],
    [ScipyFacts] and [DamageCalculatorFacts] hold the theorems.

    Numbers.  Python floats are modelled by exact rationals [Q]: every
    [+], [-], [*], [/] and integer power of the source is the exact
    operation, so the theorems speak about the formulas the code
    evaluates and not about binary64 rounding.  Equality of computed
    numbers is [Qeq] ([==]); where the code stores a value it was handed,
    the statement uses Leibniz equality.  Python ints are [Z].

    The module [Binary64] replays the arithmetic of the concrete
    scenarios on IEEE 754 binary64 numbers, which are Python's floats,
    to show that the quoted values are also the ones the floats give.

    Library calls that are not rational functions (scipy's GEV fit and
    quantile function, numpy's log10 and its random generator) are taken
    as parameters of the functions that call them. *)

From Stdlib Require Import ZArith QArith Qabs Qminmax Qpower Lia Lqa.
From Stdlib Require Import List Sorted String Ascii Bool Floats.
From stdpp Require Import gmap strings.

Import ListNotations.
Local Open Scope string_scope.

(** ** Python outcomes *)

Module Py.

(** The exceptions the modelled functions raise. *)
Inductive exn : Type :=
| ZeroDivisionError
| ValueError (msg : string)
| CalculationError (msg : string).

(** A call either returns a value or raises. *)
Inductive outcome (A : Type) : Type :=
| Returned (a : A)
| Raised (e : exn).

Arguments Returned {A} a.
Arguments Raised {A} e.

Definition bind {A B : Type} (m : outcome A) (k : A -> outcome B) : outcome B :=
  match m with
  | Returned a => k a
  | Raised e => Raised e
  end.

Definition in_str (x : string) (xs : list string) : bool :=
  existsb (String.eqb x) xs.

(** [needle in haystack] on strings (substring test). *)
Definition contains (needle haystack : string) : bool :=
  match String.index 0 needle haystack with
  | Some _ => true
  | None => false
  end.

(** [str.lower] on ASCII text. *)
Definition lower_ascii (c : ascii) : ascii :=
  let n := nat_of_ascii c in
  if (65 <=? n)%nat && (n <=? 90)%nat then ascii_of_nat (n + 32) else c.

Fixpoint lower (s : string) : string :=
  match s with
  | EmptyString => EmptyString
  | String c s' => String (lower_ascii c) (lower s')
  end.

(** [len] as a Python int. *)
Definition len {A : Type} (l : list A) : Z := Z.of_nat (length l).

(** Decimal literals: [dec n k] is [n / 10^k]. *)
Definition dec (n : Z) (k : positive) : Q := n # (10 ^ k).

(** The sum of a list of numbers, added from the left starting at 0. *)
Definition Qsum (xs : list Q) : Q := fold_left Qplus xs 0%Q.

End Py.

Import Py.

(** ** climate_probability.py *)

Module ClimateProbability.

Local Open Scope Q_scope.

Record Date : Type := { year : Z; month : Z; day : Z }.

(** One row of the historical table.  A column that the table does not
    carry (see [columns]) is never read.  [event_type = None] is a
    missing cell (None/NaN). *)
Record Row : Type := {
  date : Date;
  rainfall : Q;
  event_type : option string
}.

Record DataFrame : Type := {
  columns : list string;
  rows : list Row
}.

(** THRESHOLDS *)
Definition THRESHOLD_heavy_rainfall : Q := 100.
Definition THRESHOLD_extreme_rainfall : Q := 200.
Definition THRESHOLD_flood_rainfall : Q := 150.

(** [(df['rainfall'] >= t).sum()] *)
Definition count_rainfall_ge (t : Q) (rs : list Row) : Z :=
  len (List.filter (fun r => Qle_bool t (rainfall r)) rs).

Record ClimateEventAnalyzer : Type := {
  historical_data : option DataFrame;
  event_counts : gmap string Z;
  total_days : Z
}.

(** [Series.value_counts()]: every distinct non-missing value with the
    number of rows that carry it. *)
Fixpoint bump (e : string) (acc : list (string * Z)) : list (string * Z) :=
  match acc with
  | [] => [(e, 1%Z)]
  | (k, n) :: acc' =>
      if String.eqb k e then (k, (n + 1)%Z) :: acc' else (k, n) :: bump e acc'
  end.

Definition value_counts (cells : list (option string)) : list (string * Z) :=
  fold_left
    (fun acc cell => match cell with Some e => bump e acc | None => acc end)
    cells [].

(** [self.event_counts[k] += count] on a [defaultdict(int)]. *)
Definition add_count (k : string) (count : Z) (m : gmap string Z) : gmap string Z :=
  <[k := (default 0%Z (m !! k) + count)%Z]> m.

Definition count_event_types (m : gmap string Z) (vc : list (string * Z))
  : gmap string Z :=
  fold_left
    (fun m '(event, count) =>
       if negb (String.eqb event "") && negb (String.eqb (lower event) "none")
       then
         let event_lower := lower event in
         if contains "flood" event_lower
            || contains "rainfall" event_lower
            || contains "rain" event_lower
         then add_count event_lower count m
         else m
       else m)
    vc m.

(** [_process_historical_data], on the counters set by [__init__]. *)
Definition _process_historical_data (data : option DataFrame)
  : gmap string Z * Z :=
  match data with
  | None => (∅, 0%Z)
  | Some df =>
      if (len (rows df) =? 0)%Z then (∅, 0%Z)
      else
        let total := len (rows df) in
        let counts1 : gmap string Z :=
          if in_str "rainfall" (columns df) then
            <["flood" := count_rainfall_ge THRESHOLD_flood_rainfall (rows df)]>
            (<["extreme_rainfall" :=
                 count_rainfall_ge THRESHOLD_extreme_rainfall (rows df)]>
             (<["heavy_rainfall" :=
                  count_rainfall_ge THRESHOLD_heavy_rainfall (rows df)]> ∅))
          else ∅ in
        let counts2 :=
          if in_str "event_type" (columns df) then
            count_event_types counts1 (value_counts (map event_type (rows df)))
          else counts1 in
        (counts2, total)
  end.

(** [ClimateEventAnalyzer(historical_data)] *)
Definition init (data : option DataFrame) : ClimateEventAnalyzer :=
  let '(counts, total) := _process_historical_data data in
  {| historical_data := data; event_counts := counts; total_days := total |}.

(** [calculate_event_probability].  [time_window] is a number of days;
    the power is [Qpower], which agrees with the float power on every
    non-negative exponent and on every negative exponent whose base is
    not zero. *)
Definition calculate_event_probability
    (self : ClimateEventAnalyzer) (event_type : string) (time_window : Z) : Q :=
  if (total_days self =? 0)%Z then 0
  else
    let event_count := default 0%Z (event_counts self !! lower event_type) in
    let daily_probability := inject_Z event_count / inject_Z (total_days self) in
    let probability_no_events := (1 - daily_probability) ^ time_window in
    let probability_at_least_one := 1 - probability_no_events in
    Qmin probability_at_least_one 1.




(** The formula of the unrestricted variant, on a count and a number
    of days. *)
Definition window_formula (event_count total : Z) (time_window : Z) : Q :=
  1 - (1 - inject_Z event_count / inject_Z total) ^ time_window.

End ClimateProbability.

(** ** backend/isimip_probability.py *)

Module Isimip.

Local Open Scope Q_scope.

(** The dict returned by [fit_gev_distribution]. *)
Record GEVParams : Type := {
  shape : Q;
  location : Q;
  scale : Q;
  ks_statistic : Q;
  p_value : Q;
  fit_quality : string
}.

(** One row of the table returned by [calculate_return_levels]. *)
Record ReturnLevel : Type := {
  return_period : Z;
  return_level : Q;
  annual_probability : Q;
  ci_lower : Q;
  ci_upper : Q
}.

Section Fitting.

(** [stats.genextreme.fit(data)]: the fitted (c, loc, scale), or the
    exception scipy raises. *)
Variable genextreme_fit : list Q -> outcome (Q * Q * Q).

(** [stats.kstest(data, 'genextreme', args=params)]:
    (statistic, p-value). *)
Variable kstest : list Q -> Q * Q * Q -> Q * Q.

(** [stats.genextreme.ppf(q, c, loc, scale)] *)
Variable genextreme_ppf : Q -> Q -> Q -> Q -> Q.


(** The body of the loop of [calculate_return_levels]; [1.0 / rp]
    raises on [rp = 0]. *)
Definition return_level_row (gev_params : GEVParams) (rp : Z)
  : outcome ReturnLevel :=
  if (rp =? 0)%Z then Raised ZeroDivisionError
  else
    let exceedance_prob := 1 / inject_Z rp in
    let non_exceedance_prob := 1 - exceedance_prob in
    let return_level :=
      genextreme_ppf non_exceedance_prob
        (shape gev_params) (location gev_params) (scale gev_params) in
    let ci_lower := return_level * dec 8 1 in
    let ci_upper := return_level * dec 12 1 in
    Returned {| return_period := rp;
                return_level := return_level;
                annual_probability := 1 / inject_Z rp;
                ci_lower := ci_lower;
                ci_upper := ci_upper |}.

(** [for rp in return_periods: ... results.append(...)] *)
Fixpoint return_levels_loop (gev_params : GEVParams) (return_periods : list Z)
    (results : list ReturnLevel) : outcome (list ReturnLevel) :=
  match return_periods with
  | [] => Returned results
  | rp :: rest =>
      bind (return_level_row gev_params rp) (fun row =>
        return_levels_loop gev_params rest (results ++ [row])%list)
  end.

Definition calculate_return_levels (gev_params : GEVParams)
    (return_periods : list Z) : outcome (list ReturnLevel) :=
  return_levels_loop gev_params return_periods [].

End Fitting.

(** Default value of the argument [return_periods]. *)
Definition default_return_periods : list Z := [10; 25; 50; 100; 250]%Z.

End Isimip.

(** ** backend/climate_probability_climada.py *)

Module Climada.

Local Open Scope Q_scope.

(** One record of the hazard table.  The tables of both loaders carry
    these columns; the further columns of the ISIMIP loader are not
    read by the functions below. *)
Record HazardRow : Type := {
  location : string;
  latitude : Q;
  longitude : Q;
  location_type : string;
  return_period : Z;
  flood_intensity_m : Q;
  annual_probability : Q;
  scenario : string;
  data_source : string
}.

(** The entries of [locations] in [get_flood_hazard_malaysia]. *)
Definition locations : list (string * Q * Q * string) :=
  [ ("Malaysia (Country)", dec 42105 4, dec 1019758 4, "country");
    ("Selangor", dec 30738 4, dec 1015183 4, "state");
    ("Johor", dec 14854 4, dec 1037618 4, "state");
    ("Kelantan", dec 61256 4, dec 1022381 4, "state");
    ("Terengganu", dec 53117 4, dec 1031324 4, "state");
    ("Pahang", dec 38126 4, dec 1033256 4, "state");
    ("Perak", dec 45921 4, dec 1010901 4, "state");
    ("Penang", dec 54164 4, dec 1003327 4, "state");
    ("Sabah", dec 59788 4, dec 1160753 4, "state");
    ("Sarawak", dec 15533 4, dec 1103593 4, "state") ].

(** [{...}.get(scenario, 1.0)] *)
Definition scenario_factor (scenario : string) : Q :=
  if String.eqb scenario "historical" then 1
  else if String.eqb scenario "rcp26" then dec 11 1
  else if String.eqb scenario "rcp45" then dec 125 2
  else if String.eqb scenario "rcp60" then dec 135 2
  else if String.eqb scenario "rcp85" then dec 15 1
  else 1.

(** The chain of [if]/[elif] that rescales the intensity by place. *)
Definition location_adjusted (loc_type location : string) (intensity : Q) : Q :=
  if String.eqb loc_type "country" then intensity * dec 85 2
  else if String.eqb location "Kelantan" then intensity * dec 135 2
  else if String.eqb location "Terengganu" then intensity * dec 130 2
  else if String.eqb location "Pahang" then intensity * dec 125 2
  else if String.eqb location "Johor" then intensity * dec 115 2
  else if String.eqb location "Selangor" then intensity * dec 110 2
  else if String.eqb location "Perak" then intensity * dec 105 2
  else if in_str location ["Penang"; "Sabah"; "Sarawak"] then intensity * dec 100 2
  else intensity.

Section Simulated.

(** numpy's generator: its state, and [np.random.normal(loc, scale)]
    as a draw that returns the advanced state. *)
Variable rng : Type.
Variable random_normal : Q -> Q -> rng -> Q * rng.

(** [np.log10] on a return period. *)
Variable log10 : Z -> Q.

(** The intensity before the floor: the value of [intensity] when
    the record is built. *)
Definition raw_intensity (scenario : string) (loc : string * Q * Q * string)
    (rp : Z) (noise : Q) : Q :=
  let '(location, lat, lon, loc_type) := loc in
  let base_intensity := log10 rp * dec 5 1 in
  let intensity := base_intensity + noise in
  let intensity := location_adjusted loc_type location intensity in
  intensity * scenario_factor scenario.

(** The body of the inner loop. *)
Definition hazard_record (scenario : string) (loc : string * Q * Q * string)
    (rp : Z) (g : rng) : outcome (HazardRow * rng) :=
  let '(location, lat, lon, loc_type) := loc in
  let '(noise, g') := random_normal 0 (dec 2 1) g in
  let intensity := raw_intensity scenario loc rp noise in
  if (rp =? 0)%Z then Raised ZeroDivisionError
  else
    let annual_prob := 1 / inject_Z rp in
    Returned ({| location := location;
                 latitude := lat;
                 longitude := lon;
                 location_type := loc_type;
                 return_period := rp;
                 flood_intensity_m := Qmax (dec 1 1) intensity;
                 annual_probability := annual_prob;
                 scenario := scenario;
                 data_source := "CLIMADA-simulated" |}, g').

(** [for rp in return_periods] *)
Fixpoint for_return_periods (scenario : string) (loc : string * Q * Q * string)
    (return_periods : list Z) (data : list HazardRow) (g : rng)
  : outcome (list HazardRow * rng) :=
  match return_periods with
  | [] => Returned (data, g)
  | rp :: rest =>
      bind (hazard_record scenario loc rp g) (fun '(row, g') =>
        for_return_periods scenario loc rest (data ++ [row])%list g')
  end.

(** [for location, lat, lon, loc_type in locations] *)
Fixpoint for_locations (scenario : string) (locs : list (string * Q * Q * string))
    (return_periods : list Z) (data : list HazardRow) (g : rng)
  : outcome (list HazardRow * rng) :=
  match locs with
  | [] => Returned (data, g)
  | loc :: rest =>
      bind (for_return_periods scenario loc return_periods data g)
        (fun '(data', g') => for_locations scenario rest return_periods data' g')
  end.

Definition get_flood_hazard_malaysia (scenario : string)
    (return_periods : list Z) (g : rng) : outcome (list HazardRow * rng) :=
  for_locations scenario locations return_periods [] g.

End Simulated.

(** How the record of a place and return period under "rcp85" stands to
    the record under "historical" drawn with the same noise. *)
Definition rcp85_of_historical (h f : HazardRow) : Prop :=
  location h = location f
  /\ return_period h = return_period f
  /\ annual_probability h = annual_probability f
  /\ flood_intensity_m h <= flood_intensity_m f
  /\ flood_intensity_m f <= dec 15 1 * flood_intensity_m h
  /\ (dec 1 1 < flood_intensity_m h ->
      flood_intensity_m f == dec 15 1 * flood_intensity_m h).

(** The dict returned by [get_exposure_litpop] (the fields with the
    per-region breakdown and the descriptive strings are left out). *)
Record Exposure : Type := {
  country : string;
  country_code : string;
  total_exposure_usd : Q;
  population : Q;
  flood_exposure_ratio : Q
}.

Definition get_exposure_litpop (country_code : string) : Exposure :=
  {| country := "Malaysia";
     country_code := country_code;
     total_exposure_usd := 350000000000;
     population := 33000000;
     flood_exposure_ratio := dec 15 2 |}.

Record ClimadaFloodAnalyzer : Type := {
  hazard_data : option (list HazardRow);
  exposure_data : option Exposure
}.






Section ReturnPeriods.

Variable genextreme_fit : list Q -> outcome (Q * Q * Q).
Variable genextreme_ppf : Q -> Q -> Q -> Q -> Q.


End ReturnPeriods.

(** One entry of [return_period_impacts]. *)
Record Impact : Type := {
  imp_return_period : Z;
  probability : Q;
  imp_flood_intensity_m : Q;
  damage_ratio : Q;
  impact_usd : Q
}.

(** The dict returned by [calculate_expected_annual_impact]. *)
Record EAIResult : Type := {
  eai_location : string;
  expected_annual_impact_usd : Q;
  exposure_usd : Q;
  eai_ratio : Q;
  return_period_impacts : list Impact
}.

(** [state_exposure_ratios.get(location, 0.04)] *)
Definition state_exposure_ratio (location : string) : Q :=
  if String.eqb location "Selangor" then dec 28 2
  else if String.eqb location "Johor" then dec 14 2
  else if String.eqb location "Penang" then dec 9 2
  else if String.eqb location "Sarawak" then dec 10 2
  else if String.eqb location "Sabah" then dec 8 2
  else if String.eqb location "Perak" then dec 8 2
  else if String.eqb location "Pahang" then dec 8 2
  else if String.eqb location "Kelantan" then dec 6 2
  else if String.eqb location "Terengganu" then dec 5 2
  else dec 4 2.

Definition location_exposure_of (total_exposure : Q) (location : string) : Q :=
  if String.eqb location "Malaysia (Country)" then total_exposure
  else total_exposure * state_exposure_ratio location.

(** The body of [for _, row in loc_hazard.iterrows()], on the pair
    ([eai], [impacts]). *)
Definition eai_step (location_exposure : Q) (acc : Q * list Impact)
    (row : HazardRow) : Q * list Impact :=
  let '(eai, impacts) := acc in
  let intensity := flood_intensity_m row in
  let damage_ratio := Qmin 1 (intensity / 3) in
  let impact := location_exposure * damage_ratio in
  let probability := annual_probability row in
  (eai + probability * impact,
   (impacts ++ [ {| imp_return_period := return_period row;
                    probability := probability;
                    imp_flood_intensity_m := intensity;
                    damage_ratio := damage_ratio;
                    impact_usd := impact |} ])%list).

(** The entry of the breakdown that the loop records for a hazard row. *)
Definition impact_entry (location_exposure : Q) (row : HazardRow) : Impact :=
  {| imp_return_period := return_period row;
     probability := annual_probability row;
     imp_flood_intensity_m := flood_intensity_m row;
     damage_ratio := Qmin 1 (flood_intensity_m row / 3);
     impact_usd := location_exposure * Qmin 1 (flood_intensity_m row / 3) |}.

Section Impact.

(** The table that [self.load_flood_hazard()] stores when it is
    called without arguments; its content depends on numpy's
    generator and on scipy's fit. *)
Variable loaded_hazard : list HazardRow.

(** [calculate_expected_annual_impact]: the analyzer after the call
    and the dict returned ([None] for the empty dict). *)
Definition calculate_expected_annual_impact
    (self : ClimadaFloodAnalyzer) (location : string)
  : ClimadaFloodAnalyzer * outcome (option EAIResult) :=
  let hazard :=
    match hazard_data self with Some h => h | None => loaded_hazard end in
  let exposure :=
    match exposure_data self with
    | Some e => e
    | None => get_exposure_litpop "MYS"
    end in
  let self' := {| hazard_data := Some hazard; exposure_data := Some exposure |} in
  let loc_hazard :=
    List.filter (fun row => String.eqb (Climada.location row) location) hazard in
  match loc_hazard with
  | [] => (self', Returned None)
  | _ :: _ =>
      let total_exposure := total_exposure_usd exposure in
      let location_exposure := location_exposure_of total_exposure location in
      let '(eai, impacts) :=
        fold_left (eai_step location_exposure) loc_hazard (0, []) in
      if Qeq_bool location_exposure 0 then (self', Raised ZeroDivisionError)
      else
        (self',
         Returned (Some {| eai_location := location;
                           expected_annual_impact_usd := eai;
                           exposure_usd := location_exposure;
                           eai_ratio := eai / location_exposure;
                           return_period_impacts := impacts |}))
  end.

End Impact.

End Climada.

(** ** scipy.interpolate.interp1d, kind='linear' *)

Module Scipy.

Local Open Scope Q_scope.

(** The constructor sorts the abscissae with a stable sort
    ([np.argsort(x, kind="mergesort")]) and reorders the ordinates
    with them. *)
Fixpoint insert_point (p : Q * Q) (l : list (Q * Q)) : list (Q * Q) :=
  match l with
  | [] => [p]
  | q :: l' =>
      if Qle_bool (fst p) (fst q) then p :: l else q :: insert_point p l'
  end.

Definition sort_points (l : list (Q * Q)) : list (Q * Q) :=
  fold_right insert_point [] l.

Record interp1d : Type := {
  points : list (Q * Q);
  bounds_error : bool;
  fill_value : Q * Q
}.

Definition make (x y : list Q) (bounds_error : bool) (fill_value : Q * Q)
  : interp1d :=
  {| points := sort_points (combine x y);
     bounds_error := bounds_error;
     fill_value := fill_value |}.

(** [np.searchsorted(x, v)] (side 'left') on the sorted abscissae:
    the number of entries strictly below [v]. *)
Fixpoint searchsorted (pts : list (Q * Q)) (v : Q) : nat :=
  match pts with
  | [] => 0
  | p :: pts' => if Qle_bool v (fst p) then 0%nat else S (searchsorted pts' v)
  end.

(** [idx.clip(1, len(x) - 1)] *)
Definition clip (lo hi i : nat) : nat := Nat.min (Nat.max lo i) hi.

(** The linear formula on the two entries around [x_new]. *)
Definition call_linear (pts : list (Q * Q)) (x_new : Q) : Q :=
  let hi := clip 1 (length pts - 1) (searchsorted pts x_new) in
  let lo := (hi - 1)%nat in
  let '(x_lo, y_lo) := nth lo pts (0, 0) in
  let '(x_hi, y_hi) := nth hi pts (0, 0) in
  let slope := (y_hi - y_lo) / (x_hi - x_lo) in
  slope * (x_new - x_lo) + y_lo.

(** Evaluation at one point: outside the range of the abscissae the
    call raises when [bounds_error] is set and returns the fill value
    of that side otherwise. *)
Definition call (f : interp1d) (x_new : Q) : outcome Q :=
  let pts := points f in
  let x_first := fst (nth 0 pts (0, 0)) in
  let x_last := fst (List.last pts (0, 0)) in
  let below := negb (Qle_bool x_first x_new) in
  let above := negb (Qle_bool x_new x_last) in
  if below then
    if bounds_error f
    then Raised (ValueError "A value in x_new is below the interpolation range.")
    else Returned (fst (fill_value f))
  else if above then
    if bounds_error f
    then Raised (ValueError "A value in x_new is above the interpolation range.")
    else Returned (snd (fill_value f))
  else Returned (call_linear pts x_new).

End Scipy.

(** ** backend/flood_damage_library/core/damage_calculator.py *)

Module DamageCalculator.

Local Open Scope Q_scope.

(** A damage function: the rows (depth, damage_ratio) of the table, in
    the order of the table. *)
Definition DamageFunction : Type := list (Q * Q).

(** The control points of a well-formed damage function come in
    strictly increasing depth. *)
Definition increasing_depths (damage_function : DamageFunction) : Prop :=
  StronglySorted (fun p q => fst p < fst q) damage_function.

(** The value at [depth] of the straight line through two control
    points. *)
Definition line_through (lo hi : Q * Q) (depth : Q) : Q :=
  snd lo + (snd hi - snd lo) * (depth - fst lo) / (fst hi - fst lo).

(** [_interpolate_damage_ratio] *)
Definition _interpolate_damage_ratio (damage_function : DamageFunction)
    (flood_depth : Q) : outcome Q :=
  if (len damage_function <? 2)%Z then
    Raised (CalculationError "Función de daño insuficiente para interpolación")
  else
    let depths := map fst damage_function in
    let ratios := map snd damage_function in
    if Qle_bool flood_depth (nth 0 depths 0) then Returned (nth 0 ratios 0)
    else if Qle_bool (List.last depths 0) flood_depth then Returned (List.last ratios 0)
    else
      let interp_func := Scipy.make depths ratios true (0, 0) in
      Scipy.call interp_func flood_depth.

(** [_get_generic_damage_function] *)
Definition _get_generic_damage_function (land_use_type : string) : DamageFunction :=
  if String.eqb land_use_type "residential" then
    combine [0; 1 # 2; 1; 3 # 2; 2; 3; 4; 5]
            [0; dec 15 2; dec 35 2; dec 50 2; dec 65 2; dec 80 2; dec 90 2; dec 95 2]
  else if String.eqb land_use_type "commercial" then
    combine [0; dec 3 1; dec 6 1; 1; 3 # 2; 2; 3; 4]
            [0; dec 20 2; dec 40 2; dec 60 2; dec 75 2; dec 85 2; dec 92 2; dec 97 2]
  else if String.eqb land_use_type "industrial" then
    combine [0; 1 # 2; 1; 3 # 2; 2; 5 # 2; 3; 4]
            [0; dec 10 2; dec 25 2; dec 40 2; dec 55 2; dec 70 2; dec 80 2; dec 90 2]
  else
    combine [0; 1 # 2; 1; 3 # 2; 2; 3; 4; 5]
            [0; dec 15 2; dec 30 2; dec 45 2; dec 60 2; dec 75 2; dec 85 2; dec 95 2].

End DamageCalculator.

(** ** backend/flood_damage_library/core/enhanced_damage_calculator.py *)

Module EnhancedDamageCalculator.

Local Open Scope Q_scope.

(** One row of [self.damage_functions]. *)
Record DamageRow : Type := {
  building_type : string;
  depth_m : Q;
  damage_ratio : Q;
  country_code : string
}.

(** The control points (depth_m, damage_ratio) of the rows of a table. *)
Definition control_points (rows : list DamageRow) : list (Q * Q) :=
  map (fun r => (depth_m r, damage_ratio r)) rows.

(** [_get_damage_ratio], on the table [self.damage_functions]. *)
Definition _get_damage_ratio (damage_functions : list DamageRow)
    (depth : Q) (building_type' country_code' : string) : outcome Q :=
  let relevant_functions :=
    List.filter (fun r =>
              String.eqb (building_type r) building_type'
              && in_str (country_code r) [country_code'; "DEFAULT"])
           damage_functions in
  match relevant_functions with
  | [] => Returned (Qmin 1 (depth * dec 3 1))
  | _ :: _ =>
      let country_specific :=
        List.filter (fun r => String.eqb (country_code r) country_code')
               relevant_functions in
      let relevant_functions :=
        match country_specific with
        | [] => relevant_functions
        | _ :: _ => country_specific
        end in
      let depths := map depth_m relevant_functions in
      let ratios := map damage_ratio relevant_functions in
      if (len depths =? 1)%Z then Returned (nth 0 ratios 0)
      else
        let f := Scipy.make depths ratios false (nth 0 ratios 0, List.last ratios 0) in
        Scipy.call f depth
  end.

(** The rows of a table for one building type under one country code,
    in the order of the table. *)
Definition rows_for (rows : list DamageRow)
    (building_type' country_code' : string) : list DamageRow :=
  List.filter (fun r =>
                 String.eqb (building_type r) building_type'
                 && String.eqb (country_code r) country_code')
              rows.

(** The damage function that answers a query, as the comments of
    [_get_damage_ratio] word it ("Preferir datos específicos del país"):
    the rows of the building type for the country when the table has
    any, and the rows of the building type under "DEFAULT" otherwise.
    It is compared with the selection that the code makes. *)
Definition selected_rows (rows : list DamageRow)
    (building_type' country_code' : string) : list DamageRow :=
  match rows_for rows building_type' country_code' with
  | [] => rows_for rows building_type' "DEFAULT"
  | specific => specific
  end.

End EnhancedDamageCalculator.

(** ** The scalar steps on binary64 *)

Module Binary64.

#[local] Set Warnings "-inexact-float".
Local Open Scope float_scope.

(** [min(a, b)] and [max(a, b)] of Python: the first argument unless
    the second is strictly smaller (larger). *)
Definition pymin (a b : float) : float := if PrimFloat.ltb b a then b else a.
Definition pymax (a b : float) : float := if PrimFloat.ltb a b then b else a.

(** The loop of [calculate_expected_annual_impact] on rows
    (annual_probability, flood_intensity_m), and the two numbers
    returned: the impact and its ratio to the exposure. *)
Definition expected_annual_impact (location_exposure : float)
    (rows : list (float * float)) : float * float :=
  let eai :=
    fold_left
      (fun eai '(probability, intensity) =>
         let damage_ratio := pymin 1 (intensity / 3) in
         let impact := location_exposure * damage_ratio in
         eai + probability * impact)
      rows 0 in
  (eai, eai / location_exposure).

(** The intensity of a record of [get_flood_hazard_malaysia] from the
    logarithm of the return period, the noise and the two factors. *)
Definition flood_intensity (log10_rp noise place scenario : float) : float :=
  pymax 0.1 ((log10_rp * 0.5 + noise) * place * scenario).

(** The linear formula of the interpolation between two control
    points. *)
Definition line (x_lo y_lo x_hi y_hi x_new : float) : float :=
  let slope := (y_hi - y_lo) / (x_hi - x_lo) in
  slope * (x_new - x_lo) + y_lo.

End Binary64.

(** ** Concrete inputs *)

Module Scenarios.

Import ClimateProbability.
Local Open Scope Q_scope.

Definition new_year : Date := {| year := 2014; month := 1; day := 1 |}.

Definition wet_day : Row :=
  {| date := new_year; rainfall := 150; event_type := None |}.
Definition dry_day : Row :=
  {| date := new_year; rainfall := 0; event_type := None |}.

(** Ten years of daily records with 150 flood days. *)
Definition ten_years : DataFrame :=
  {| columns := ["date"; "rainfall"];
     rows := (repeat wet_day 150 ++ repeat dry_day 3500)%list |}.

Definition analyzer_A : ClimateEventAnalyzer := init (Some ten_years).



(** A quantile function to run the tables on: the one of the uniform
    distribution on [loc, loc + scale] (scipy's GEV quantile function
    is not a rational function). *)
Definition uniform_ppf (q c loc scale : Q) : Q := loc + scale * q.


Definition gev_example : Isimip.GEVParams :=
  {| Isimip.shape := 0;
     Isimip.location := 100;
     Isimip.scale := 20;
     Isimip.ks_statistic := dec 1 1;
     Isimip.p_value := dec 5 1;
     Isimip.fit_quality := "Good" |}.




(** The damage function with the control points (0, 0), (1, 0.5) and
    (2, 1.0). *)
Definition three_points : DamageCalculator.DamageFunction :=
  [(0, 0); (1, dec 5 1); (2, 1)].

Definition row_of_point (p : Q * Q) : EnhancedDamageCalculator.DamageRow :=
  {| EnhancedDamageCalculator.building_type := "residential";
     EnhancedDamageCalculator.depth_m := fst p;
     EnhancedDamageCalculator.damage_ratio := snd p;
     EnhancedDamageCalculator.country_code := "US" |}.

(** The same three points as rows of a table of damage functions, and a
    table with a single control point (1, 0.5). *)
Definition three_rows : list EnhancedDamageCalculator.DamageRow :=
  map row_of_point three_points.

Definition one_row : list EnhancedDamageCalculator.DamageRow :=
  [row_of_point (1, dec 5 1)].

(** A table that mixes three damage functions, row by row: residential
    for "US" with the points (0, 0), (1, 0.5), (2, 1.0); residential
    under "DEFAULT" with (0, 0), (4, 0.8); commercial under "DEFAULT"
    with the single point (1, 0.6). *)
Definition damage_row (building_type country_code : string) (p : Q * Q)
  : EnhancedDamageCalculator.DamageRow :=
  {| EnhancedDamageCalculator.building_type := building_type;
     EnhancedDamageCalculator.depth_m := fst p;
     EnhancedDamageCalculator.damage_ratio := snd p;
     EnhancedDamageCalculator.country_code := country_code |}.

Definition mixed_rows : list EnhancedDamageCalculator.DamageRow :=
  [ damage_row "residential" "DEFAULT" (0, 0);
    damage_row "residential" "US" (0, 0);
    damage_row "commercial" "DEFAULT" (1, dec 6 1);
    damage_row "residential" "US" (1, dec 5 1);
    damage_row "residential" "DEFAULT" (4, dec 8 1);
    damage_row "residential" "US" (2, 1) ].

(** The three points with the middle one listed first: the minimum
    depth 0, with the ratio 0, is not the first of the table. *)
Definition unsorted_points : DamageCalculator.DamageFunction :=
  [(1, dec 5 1); (0, 0); (2, 1)].

Definition unsorted_rows : list EnhancedDamageCalculator.DamageRow :=
  map row_of_point unsorted_points.

(** A hazard curve of one row for the country: return period 100,
    annual probability 0.01 and a depth of 0.9 m, whose damage ratio is
    0.9 / 3 = 0.3. *)
Definition country_row : Climada.HazardRow :=
  {| Climada.location := "Malaysia (Country)";
     Climada.latitude := dec 42105 4;
     Climada.longitude := dec 1019758 4;
     Climada.location_type := "country";
     Climada.return_period := 100;
     Climada.flood_intensity_m := dec 9 1;
     Climada.annual_probability := dec 1 2;
     Climada.scenario := "historical";
     Climada.data_source := "CLIMADA-simulated" |}.

Definition exposure_of_total (total : Q) : Climada.Exposure :=
  {| Climada.country := "Malaysia";
     Climada.country_code := "MYS";
     Climada.total_exposure_usd := total;
     Climada.population := 33000000;
     Climada.flood_exposure_ratio := dec 15 2 |}.

(** An analyzer holding the one-row curve and an exposure of
    1,000,000,000. *)
Definition analyzer_C : Climada.ClimadaFloodAnalyzer :=
  {| Climada.hazard_data := Some [country_row];
     Climada.exposure_data := Some (exposure_of_total 1000000000) |}.

(** The same with a negative and with a zero exposure. *)
Definition analyzer_negative : Climada.ClimadaFloodAnalyzer :=
  {| Climada.hazard_data := Some [country_row];
     Climada.exposure_data := Some (exposure_of_total (-1000000000)) |}.

Definition analyzer_zero : Climada.ClimadaFloodAnalyzer :=
  {| Climada.hazard_data := Some [country_row];
     Climada.exposure_data := Some (exposure_of_total 0) |}.

(** A generator that hands out prepared draws in their order (0 once
    they are used up). *)
Definition next_draw (loc scale : Q) (g : list Q) : Q * list Q :=
  match g with
  | [] => (0, [])
  | x :: g' => (x, g')
  end.

(** Ten draws of -0.45, a value 2.25 standard deviations below the
    mean of the noise. *)
Definition low_draws : list Q := repeat (- dec 45 2) 10.

(** The integer part of the decimal logarithm, which is the decimal
    logarithm itself on the powers of ten. *)
Fixpoint log10_digits (fuel : nat) (n : Z) : Z :=
  match fuel with
  | O => 0
  | S fuel' => if (n <? 10)%Z then 0 else (1 + log10_digits fuel' (n / 10))%Z
  end.

Definition log10_floor (rp : Z) : Q := inject_Z (log10_digits (Z.to_nat rp) rp).

End Scenarios.

(** ** Facts about climate_probability.py *)

Module ClimateProbabilityFacts.

Import ClimateProbability Scenarios.
Local Open Scope Q_scope.

(** Powers of a number of the unit interval stay in it. *)
Lemma Qpower_unit_interval (b : Q) (n : Z) :
  0 <= b <= 1 -> (0 <= n)%Z -> 0 <= b ^ n <= 1.
Proof.
  intros [Hb0 Hb1] Hn. split.
  - now apply Qpower_0_le.
  - destruct n as [|p|p]; [simpl; lra | | lia].
    simpl. clear Hn. induction p using Pos.peano_ind.
    + simpl. lra.
    + rewrite <- Pos.add_1_r, Qpower_plus_positive.
      assert (H0 : 0 <= Qpower_positive b p) by now apply Qpower_pos_positive.
      simpl (Qpower_positive b 1). nra.
Qed.

(** A base of the unit interval gives a power that does not grow
    with the exponent. *)
Lemma Qpower_antitone (b : Q) (w1 w2 : Z) :
  0 <= b <= 1 -> (0 <= w1 <= w2)%Z -> b ^ w2 <= b ^ w1.
Proof.
  intros Hb [Hw1 Hw2].
  destruct (Z.eq_dec w1 w2) as [->|Hne]; [lra|].
  replace w2 with (w1 + (w2 - w1))%Z by lia.
  rewrite Qpower_plus' by lia.
  pose proof (Qpower_unit_interval b w1 Hb Hw1) as [H1 _].
  assert (0 <= w2 - w1)%Z as Hd by lia.
  pose proof (Qpower_unit_interval b (w2 - w1) Hb Hd) as [H2 H3].
  nra.
Qed.

Lemma daily_probability_unit (count total : Z) :
  (0 <= count <= total)%Z -> (total <> 0)%Z ->
  0 <= 1 - inject_Z count / inject_Z total <= 1.
Proof.
  intros Hc Ht.
  assert (Htq : 0 < inject_Z total).
  { change 0 with (inject_Z 0). rewrite <- Zlt_Qlt. lia. }
  assert (Hc0 : 0 <= inject_Z count).
  { change 0 with (inject_Z 0). rewrite <- Zle_Qle. lia. }
  assert (Hc1 : inject_Z count <= inject_Z total).
  { rewrite <- Zle_Qle. lia. }
  assert (Hd0 : 0 <= inject_Z count / inject_Z total).
  { apply Qle_shift_div_l; lra. }
  assert (Hd1 : inject_Z count / inject_Z total <= 1).
  { apply Qle_shift_div_r; lra. }
  lra.
Qed.


Lemma window_formula_unit (count total w : Z) :
  (0 <= count <= total)%Z -> (total <> 0)%Z -> (0 <= w)%Z ->
  0 <= window_formula count total w <= 1.
Proof.
  intros Hc Ht Hw. unfold window_formula.
  pose proof (daily_probability_unit count total Hc Ht) as Hb.
  pose proof (Qpower_unit_interval _ w Hb Hw). lra.
Qed.

Lemma event_probability_unfold (self : ClimateEventAnalyzer)
    (event_type : string) (time_window : Z) :
  (total_days self <> 0)%Z ->
  calculate_event_probability self event_type time_window =
  Qmin (window_formula (default 0%Z (event_counts self !! lower event_type))
                       (total_days self) time_window) 1.
Proof.
  intros Ht. unfold calculate_event_probability, window_formula.
  destruct (Z.eqb_spec (total_days self) 0); [contradiction | reflexivity].
Qed.

(** C3 as stated fails on its number: on 150 flood days in 3650 days
    and a window of 365 days the value does not agree with 0.999996
    to the six decimals written. *)
Lemma scenario_A_is_not_0_999996 :
  ~ (Qabs (calculate_event_probability analyzer_A "flood" 365 - dec 999996 6)
     <= dec 5 7).
Proof.
  intros H. vm_compute in H. apply H. reflexivity.
Qed.

(** C3 (amended).  The probability of an event within a window is 0
    when no day was observed and otherwise
    [min (1 - (1 - event_count / total_days) ^ time_window) 1], so it
    never exceeds 1; on counts within the number of days the clamp is
    idle.  On 150 flood days in 3650 days and a window of 365 days the
    value is [1 - (1 - 150/3650)^365], which lies between 0.9999997
    and 0.9999998. *)
Theorem event_probability_window_formula :
  (forall (self : ClimateEventAnalyzer) (event_type : string) (time_window : Z),
      let event_count := default 0%Z (event_counts self !! lower event_type) in
      let p := calculate_event_probability self event_type time_window in
      (0 <= time_window)%Z ->
      (if (total_days self =? 0)%Z then p = 0
       else p == Qmin (window_formula event_count (total_days self) time_window) 1)
      /\ p <= 1
      /\ ((0 <= event_count <= total_days self)%Z -> (total_days self <> 0)%Z ->
          p == window_formula event_count (total_days self) time_window))
  /\ event_counts analyzer_A !! "flood" = Some 150%Z
  /\ total_days analyzer_A = 3650%Z
  /\ calculate_event_probability analyzer_A "flood" 365
     == 1 - (1 - (150 # 3650)) ^ 365
  /\ dec 9999997 7 < calculate_event_probability analyzer_A "flood" 365
  /\ calculate_event_probability analyzer_A "flood" 365 < dec 9999998 7.
Proof.
  split; [| repeat split; vm_compute; reflexivity].
  intros self event_type time_window event_count p Hw.
  subst p event_count. repeat split.
  - destruct (Z.eqb_spec (total_days self) 0) as [H0|H0].
    + unfold calculate_event_probability. now rewrite H0.
    + now rewrite event_probability_unfold.
  - unfold calculate_event_probability.
    destruct (total_days self =? 0)%Z; [lra | apply Q.le_min_r].
  - intros Hc Ht. rewrite event_probability_unfold by assumption.
    apply Q.min_l. now apply window_formula_unit.
Qed.

Lemma event_probability_window_formula_witness :
  calculate_event_probability analyzer_A "flood" 365 <= 1.
Proof.
  pose proof (proj1 event_probability_window_formula analyzer_A "flood" 365%Z)
    as H.
  simpl in H. apply H. lia.
Defined.

(** C8.  For an event whose daily probability lies strictly between 0
    and 1, the probability within a window does not decrease when the
    window grows, and it lies in [0, 1]. *)
Theorem event_probability_monotone_in_window
    (self : ClimateEventAnalyzer) (event_type : string) (w1 w2 : Z) :
  let event_count := default 0%Z (event_counts self !! lower event_type) in
  (0 < event_count < total_days self)%Z ->
  (0 <= w1 < w2)%Z ->
  calculate_event_probability self event_type w1
    <= calculate_event_probability self event_type w2
  /\ 0 <= calculate_event_probability self event_type w1 <= 1
  /\ 0 <= calculate_event_probability self event_type w2 <= 1.
Proof.
  intros event_count Hc Hw. subst event_count.
  assert (Ht : (total_days self <> 0)%Z) by lia.
  assert (Hc' : (0 <= default 0%Z (event_counts self !! lower event_type)
                 <= total_days self)%Z) by lia.
  rewrite !event_probability_unfold by assumption.
  pose proof (window_formula_unit _ _ w1 Hc' Ht ltac:(lia)) as H1.
  pose proof (window_formula_unit _ _ w2 Hc' Ht ltac:(lia)) as H2.
  rewrite !Q.min_l by tauto.
  split; [| tauto].
  unfold window_formula.
  pose proof (daily_probability_unit _ _ Hc' Ht) as Hb.
  pose proof (Qpower_antitone _ w1 w2 Hb ltac:(lia)). lra.
Qed.

Lemma event_probability_monotone_in_window_witness :
  calculate_event_probability analyzer_A "flood" 30
    <= calculate_event_probability analyzer_A "flood" 365.
Proof.
  apply (event_probability_monotone_in_window analyzer_A "flood" 30 365).
  - vm_compute. split; reflexivity.
  - lia.
Defined.

(** C10.  An event type without recorded occurrences, whether its
    name is absent from the counters or counted zero times, has
    probability 0 within every window; nothing is raised. *)
Theorem unknown_event_probability_zero
    (self : ClimateEventAnalyzer) (event_type : string) (time_window : Z) :
  event_counts self !! lower event_type = None
  \/ event_counts self !! lower event_type = Some 0%Z ->
  calculate_event_probability self event_type time_window == 0.
Proof.
  intros H. unfold calculate_event_probability.
  destruct (total_days self =? 0)%Z; [reflexivity |].
  assert (Hc : default 0%Z (event_counts self !! lower event_type) = 0%Z)
    by (destruct H as [-> | ->]; reflexivity).
  rewrite Hc.
  assert (Hb : 1 - inject_Z 0 / inject_Z (total_days self) == 1).
  { unfold Qdiv. change (inject_Z 0) with 0. lra. }
  rewrite Hb, Qpower_1. apply Q.min_l. lra.
Qed.

Lemma unknown_event_probability_zero_witness :
  calculate_event_probability analyzer_A "Tsunami" 365 == 0.
Proof.
  apply (unknown_event_probability_zero analyzer_A "Tsunami" 365).
  left. vm_compute. reflexivity.
Defined.







End ClimateProbabilityFacts.

(** ** Facts about backend/isimip_probability.py *)

Module IsimipFacts.

Import Isimip Scenarios.
Local Open Scope Q_scope.

Section ReturnLevels.

Variable genextreme_ppf : Q -> Q -> Q -> Q -> Q.

(** With no zero among the return periods the loop appends one row for
    each of them, in their order. *)
Lemma return_levels_loop_returns (gev_params : GEVParams)
    (return_periods : list Z) :
  Forall (fun T => (T <> 0)%Z) return_periods ->
  forall results,
  exists rows,
    return_levels_loop genextreme_ppf gev_params return_periods results
    = Returned (results ++ rows)%list
    /\ Forall2 (fun T row =>
                  return_level_row genextreme_ppf gev_params T = Returned row)
               return_periods rows.
Proof.
  induction 1 as [|T rest HT _ IH]; intros results; simpl.
  - exists []. rewrite app_nil_r. split; [reflexivity | constructor].
  - destruct (return_level_row genextreme_ppf gev_params T) as [row|e] eqn:E.
    + simpl. destruct (IH (results ++ [row])%list) as [rows [H1 H2]].
      exists (row :: rows). rewrite H1, <- app_assoc. split; [reflexivity |].
      constructor; assumption.
    + unfold return_level_row in E.
      destruct (Z.eqb_spec T 0); [contradiction | discriminate E].
Qed.

Lemma return_level_row_fields (gev_params : GEVParams) (T : Z) (row : ReturnLevel) :
  return_level_row genextreme_ppf gev_params T = Returned row ->
  return_period row = T
  /\ return_level row
     = genextreme_ppf (1 - 1 / inject_Z T)
         (shape gev_params) (location gev_params) (scale gev_params)
  /\ annual_probability row = 1 / inject_Z T
  /\ ci_lower row = return_level row * dec 8 1
  /\ ci_upper row = return_level row * dec 12 1.
Proof.
  unfold return_level_row. destruct (T =? 0)%Z; [discriminate |].
  intros E. injection E as <-. simpl. repeat split.
Qed.

Lemma annual_probability_antitone (T1 T2 : Z) :
  (0 < T1 < T2)%Z -> 1 / inject_Z T2 < 1 / inject_Z T1.
Proof.
  intros [H1 H2].
  assert (Hq1 : 0 < inject_Z T1).
  { change 0 with (inject_Z 0). rewrite <- Zlt_Qlt. lia. }
  assert (Hq2 : inject_Z T1 < inject_Z T2) by (rewrite <- Zlt_Qlt; lia).
  apply Qlt_shift_div_l; [lra |].
  assert (E : 1 / inject_Z T2 * inject_Z T1 == inject_Z T1 / inject_Z T2)
    by (field; lra).
  rewrite E. apply Qlt_shift_div_r; lra.
Qed.

(** C2.  For GEV parameters and a list of positive return periods,
    [calculate_return_levels] returns one row for each requested period
    T, in the order requested: its magnitude is the quantile function at
    the non-exceedance probability 1 - 1/T, its confidence bounds are
    0.8 and 1.2 times the magnitude, and its annual probability is 1/T.
    Of two rows the one with the longer return period has the strictly
    smaller annual probability. *)
Theorem return_levels_table (gev_params : GEVParams) (return_periods : list Z) :
  Forall (fun T => (0 < T)%Z) return_periods ->
  exists rows,
    calculate_return_levels genextreme_ppf gev_params return_periods
    = Returned rows
    /\ map return_period rows = return_periods
    /\ Forall (fun row =>
                 let T := return_period row in
                 return_level row
                 = genextreme_ppf (1 - 1 / inject_Z T)
                     (shape gev_params) (location gev_params) (scale gev_params)
                 /\ ci_lower row == (8 # 10) * return_level row
                 /\ ci_upper row == (12 # 10) * return_level row
                 /\ annual_probability row == 1 / inject_Z T)
              rows
    /\ (forall r1 r2,
           In r1 rows -> In r2 rows ->
           (return_period r1 < return_period r2)%Z ->
           annual_probability r2 < annual_probability r1).
Proof.
  intros Hpos.
  assert (Hnz : Forall (fun T => (T <> 0)%Z) return_periods).
  { eapply List.Forall_impl; [| exact Hpos]. simpl. intros; lia. }
  destruct (return_levels_loop_returns gev_params return_periods Hnz [])
    as [rows [Hret Hrows]].
  exists rows. split; [exact Hret |].
  assert (Hfields : Forall (fun row =>
            (0 < return_period row)%Z
            /\ return_level_row genextreme_ppf gev_params (return_period row)
               = Returned row) rows
          /\ map return_period rows = return_periods).
  { clear Hret Hnz. induction Hrows as [|T row Ts rows' Hrow _ IH].
    - split; constructor.
    - inversion Hpos as [|? ? HT Hpos']; subst.
      destruct (IH Hpos') as [IH1 IH2].
      destruct (return_level_row_fields _ _ _ Hrow) as [HTr _].
      split.
      + constructor; [| exact IH1]. rewrite HTr. split; assumption.
      + simpl. now rewrite HTr, IH2. }
  destruct Hfields as [Hall Hmap]. split; [exact Hmap |]. split.
  - eapply List.Forall_impl; [| exact Hall]. intros row [_ Hrow]. simpl.
    destruct (return_level_row_fields _ _ _ Hrow) as [_ [Hl [Hp [Hlo Hhi]]]].
    rewrite Hlo, Hhi, Hp.
    split; [exact Hl |]. split; [| split].
    + change (dec 8 1) with (8 # 10). ring.
    + change (dec 12 1) with (12 # 10). ring.
    + reflexivity.
  - intros r1 r2 H1 H2 Hlt.
    rewrite List.Forall_forall in Hall.
    destruct (Hall r1 H1) as [Hp1 Hr1]. destruct (Hall r2 H2) as [Hp2 Hr2].
    destruct (return_level_row_fields _ _ _ Hr1) as [_ [_ [-> _]]].
    destruct (return_level_row_fields _ _ _ Hr2) as [_ [_ [-> _]]].
    apply annual_probability_antitone. lia.
Qed.

End ReturnLevels.

Lemma return_levels_table_witness :
  exists rows,
    calculate_return_levels uniform_ppf gev_example default_return_periods
    = Returned rows
    /\ map return_period rows = default_return_periods.
Proof.
  destruct (return_levels_table uniform_ppf gev_example default_return_periods)
    as [rows [H1 [H2 _]]].
  - repeat constructor.
  - exists rows. split; assumption.
Defined.

End IsimipFacts.

(** ** Facts about backend/climate_probability_climada.py *)

Module ClimadaFacts.

Import Climada Scenarios.
Local Open Scope Q_scope.

(** *** Expected annual impact *)

(** The loop adds the products to [eai] from the left and appends the
    entries to [impacts] in the order of the rows. *)
Lemma eai_loop (location_exposure : Q) (rows : list HazardRow) :
  forall (eai : Q) (impacts : list Impact),
    fold_left (eai_step location_exposure) rows (eai, impacts)
    = (fold_left Qplus
         (map (fun row =>
                 annual_probability row
                 * (location_exposure * Qmin 1 (flood_intensity_m row / 3)))
              rows)
         eai,
       (impacts ++ map (impact_entry location_exposure) rows)%list).
Proof.
  induction rows as [|row rows IH]; intros eai impacts; simpl.
  - now rewrite app_nil_r.
  - rewrite IH, <- app_assoc. reflexivity.
Qed.

(** The sum over the breakdown is the sum over the rows. *)
Lemma breakdown_products (location_exposure : Q) (rows : list HazardRow) :
  map (fun i => probability i * impact_usd i)
      (map (impact_entry location_exposure) rows)
  = map (fun row =>
           annual_probability row
           * (location_exposure * Qmin 1 (flood_intensity_m row / 3)))
        rows.
Proof. rewrite map_map. reflexivity. Qed.

Section Impact.

Variable loaded_hazard : list HazardRow.

(** What the call does once the rows of the location and the exposure
    are known. *)
Lemma expected_annual_impact_cases (self : ClimadaFloodAnalyzer) (location : string) :
  let hazard :=
    match hazard_data self with Some h => h | None => loaded_hazard end in
  let exposure :=
    match exposure_data self with
    | Some e => e
    | None => get_exposure_litpop "MYS"
    end in
  let loc_hazard :=
    List.filter (fun row => String.eqb (Climada.location row) location) hazard in
  let location_exposure :=
    location_exposure_of (total_exposure_usd exposure) location in
  loc_hazard <> [] ->
  snd (calculate_expected_annual_impact loaded_hazard self location)
  = if Qeq_bool location_exposure 0 then Raised ZeroDivisionError
    else
      let eai :=
        Qsum (map (fun row =>
                     annual_probability row
                     * (location_exposure * Qmin 1 (flood_intensity_m row / 3)))
                  loc_hazard) in
      Returned (Some {| eai_location := location;
                        expected_annual_impact_usd := eai;
                        exposure_usd := location_exposure;
                        eai_ratio := eai / location_exposure;
                        return_period_impacts :=
                          map (impact_entry location_exposure) loc_hazard |}).
Proof.
  intros hazard exposure loc_hazard location_exposure Hne.
  unfold calculate_expected_annual_impact.
  fold hazard exposure. fold loc_hazard. fold location_exposure.
  destruct loc_hazard as [|row rows] eqn:E; [contradiction |].
  rewrite eai_loop. simpl app.
  destruct (Qeq_bool location_exposure 0); reflexivity.
Qed.

(** C1.  When the location has hazard rows and a non-zero exposure, the
    expected annual impact returned is the sum over these rows of
    annual_probability * (exposure * damage_ratio), the damage ratio of
    a row being [min 1 (flood_intensity_m / 3)]; the breakdown keeps for
    every row its return period, probability, intensity, damage ratio
    and impact, in the order of the rows, so that the impact is also the
    sum of probability * impact over the breakdown; and eai_ratio is the
    impact divided by the exposure.  For an exposure of 1e9 and the
    single row with annual probability 0.01 and damage ratio 0.3 the
    impact is 3,000,000 and the ratio 0.003. *)
Theorem expected_annual_impact_is_sum :
  (forall (self : ClimadaFloodAnalyzer) (location : string),
      let hazard :=
        match hazard_data self with Some h => h | None => loaded_hazard end in
      let exposure :=
        match exposure_data self with
        | Some e => e
        | None => get_exposure_litpop "MYS"
        end in
      let loc_hazard :=
        List.filter (fun row => String.eqb (Climada.location row) location) hazard in
      let location_exposure :=
        location_exposure_of (total_exposure_usd exposure) location in
      loc_hazard <> [] ->
      ~ location_exposure == 0 ->
      exists r : EAIResult,
        snd (calculate_expected_annual_impact loaded_hazard self location)
        = Returned (Some r)
        /\ expected_annual_impact_usd r
           = Qsum (map (fun row =>
                          annual_probability row
                          * (location_exposure
                             * Qmin 1 (flood_intensity_m row / 3)))
                       loc_hazard)
        /\ return_period_impacts r = map (impact_entry location_exposure) loc_hazard
        /\ expected_annual_impact_usd r
           = Qsum (map (fun i => probability i * impact_usd i)
                       (return_period_impacts r))
        /\ exposure_usd r = location_exposure
        /\ eai_ratio r = expected_annual_impact_usd r / location_exposure)
  /\ exists r : EAIResult,
      snd (calculate_expected_annual_impact loaded_hazard analyzer_C
             "Malaysia (Country)")
      = Returned (Some r)
      /\ exposure_usd r == 1000000000
      /\ map probability (return_period_impacts r) = [dec 1 2]
      /\ Forall (fun i => damage_ratio i == dec 3 1) (return_period_impacts r)
      /\ expected_annual_impact_usd r == 3000000
      /\ eai_ratio r == dec 3 3.
Proof.
  split.
  - intros self location hazard exposure loc_hazard location_exposure Hne Hnz.
    pose proof (expected_annual_impact_cases self location Hne) as H.
    cbv zeta in H. fold hazard exposure in H. fold loc_hazard in H.
    fold location_exposure in H.
    destruct (Qeq_bool location_exposure 0) eqn:E.
    + apply Qeq_bool_iff in E. contradiction.
    + eexists. split; [exact H |]. simpl.
      rewrite breakdown_products. repeat split.
  - eexists. split; [vm_compute; reflexivity |]. simpl.
    repeat split; try reflexivity.
    constructor; [reflexivity | constructor].
Qed.

(** C6 as stated fails: with a negative exposure the calculation
    raises nothing; it returns a result whose exposure is negative and
    whose ratio is the impact divided by that exposure. *)
Lemma negative_exposure_is_not_rejected :
  exists r : EAIResult,
    snd (calculate_expected_annual_impact [] analyzer_negative
           "Malaysia (Country)")
    = Returned (Some r)
    /\ exposure_usd r < 0
    /\ expected_annual_impact_usd r == - 3000000
    /\ eai_ratio r == dec 3 3.
Proof.
  eexists. split; [vm_compute; reflexivity |]. simpl.
  repeat split; reflexivity.
Qed.

(** C6 (amended).  The exposure is not checked.  For every exposure
    other than 0, the negative ones included, the calculation returns a
    result whose eai_ratio is the impact divided by that exposure; an
    exposure of 0 makes the division itself raise ZeroDivisionError. *)
Theorem eai_ratio_without_exposure_check
    (self : ClimadaFloodAnalyzer) (location : string) :
  let hazard :=
    match hazard_data self with Some h => h | None => loaded_hazard end in
  let exposure :=
    match exposure_data self with
    | Some e => e
    | None => get_exposure_litpop "MYS"
    end in
  let loc_hazard :=
    List.filter (fun row => String.eqb (Climada.location row) location) hazard in
  let location_exposure :=
    location_exposure_of (total_exposure_usd exposure) location in
  loc_hazard <> [] ->
  (location_exposure == 0 ->
   snd (calculate_expected_annual_impact loaded_hazard self location)
   = Raised ZeroDivisionError)
  /\ (~ location_exposure == 0 ->
      exists r : EAIResult,
        snd (calculate_expected_annual_impact loaded_hazard self location)
        = Returned (Some r)
        /\ exposure_usd r = location_exposure
        /\ eai_ratio r = expected_annual_impact_usd r / exposure_usd r).
Proof.
  intros hazard exposure loc_hazard location_exposure Hne.
  pose proof (expected_annual_impact_cases self location Hne) as H.
  cbv zeta in H. fold hazard exposure in H. fold loc_hazard in H.
  fold location_exposure in H.
  destruct (Qeq_bool location_exposure 0) eqn:E.
  - split; [intros _; exact H |].
    intros Hnz. apply Qeq_bool_iff in E. contradiction.
  - split.
    + intros Hz. apply Qeq_bool_iff in Hz. congruence.
    + intros _. eexists. split; [exact H |]. simpl. split; reflexivity.
Qed.

End Impact.

Lemma expected_annual_impact_is_sum_witness :
  exists r : EAIResult,
    snd (calculate_expected_annual_impact [] analyzer_C "Malaysia (Country)")
    = Returned (Some r)
    /\ exposure_usd r = 1000000000.
Proof.
  destruct (proj1 (expected_annual_impact_is_sum [])
              analyzer_C "Malaysia (Country)")
    as [r [H1 [_ [_ [_ [H2 _]]]]]].
  - discriminate.
  - intros H. discriminate H.
  - exists r. split; [exact H1 | exact H2].
Defined.

Lemma eai_ratio_without_exposure_check_witness :
  snd (calculate_expected_annual_impact [] analyzer_zero "Malaysia (Country)")
  = Raised ZeroDivisionError.
Proof.
  apply (eai_ratio_without_exposure_check [] analyzer_zero "Malaysia (Country)").
  - discriminate.
  - reflexivity.
Defined.


(** *** Return periods from data *)




Section ReturnPeriods.

Variable genextreme_fit : list Q -> outcome (Q * Q * Q).
Variable kstest : list Q -> Q * Q * Q -> Q * Q.
Variable genextreme_ppf : Q -> Q -> Q -> Q -> Q.

(** The samples that the specification calls well-behaved, and what it
    says of scipy's fit on them when they hold 10 values or more: the
    fit succeeds, with a positive scale. *)
Variable well_behaved : list Q -> Prop.

Hypothesis genextreme_fit_on_well_behaved :
  forall data : list Q,
    (10 <= len data)%Z -> well_behaved data ->
    exists c loc scale : Q,
      genextreme_fit data = Returned (c, loc, scale) /\ 0 < scale.


End ReturnPeriods.






(** *** The simulated hazard table under two scenarios *)

(** C7 as stated fails: with the draws of [low_draws] on both sides,
    the country-level record for the return period 10 has the intensity
    0.1 under "historical" and 0.1 under "rcp85", not 0.15: the raw
    values 0.0425 and 0.06375 are both lifted to the floor. *)
Lemma floored_intensity_is_not_scaled :
  exists (rows_h rows_f : list HazardRow) (g_h g_f : list Q) (h f : HazardRow),
    get_flood_hazard_malaysia (list Q) next_draw log10_floor
      "historical" [10%Z] low_draws = Returned (rows_h, g_h)
    /\ get_flood_hazard_malaysia (list Q) next_draw log10_floor
         "rcp85" [10%Z] low_draws = Returned (rows_f, g_f)
    /\ nth_error rows_h 0 = Some h
    /\ nth_error rows_f 0 = Some f
    /\ location h = "Malaysia (Country)" /\ location f = "Malaysia (Country)"
    /\ return_period h = 10%Z /\ return_period f = 10%Z
    /\ raw_intensity log10_floor "historical"
         ("Malaysia (Country)", dec 42105 4, dec 1019758 4, "country")
         10 (- dec 45 2) == dec 425 4
    /\ flood_intensity_m h == dec 1 1
    /\ flood_intensity_m f == dec 1 1
    /\ ~ flood_intensity_m f == dec 15 1 * flood_intensity_m h.
Proof.
  do 6 eexists.
  split; [vm_compute; reflexivity |].
  split; [vm_compute; reflexivity |].
  split; [reflexivity |]. split; [reflexivity |].
  repeat split; try reflexivity.
  intros H. vm_compute in H. discriminate H.
Qed.

Section Simulated.

Variable rng : Type.
Variable random_normal : Q -> Q -> rng -> Q * rng.
Variable log10 : Z -> Q.

Lemma scenario_factors :
  scenario_factor "historical" == 1 /\ scenario_factor "rcp85" == dec 15 1.
Proof. split; reflexivity. Qed.

Lemma floor_scaling (x : Q) :
  let h := Qmax (dec 1 1) (x * scenario_factor "historical") in
  let f := Qmax (dec 1 1) (x * scenario_factor "rcp85") in
  h <= f /\ f <= dec 15 1 * h /\ (dec 1 1 < h -> f == dec 15 1 * h).
Proof.
  intros h f. subst h f.
  destruct scenario_factors as [-> ->].
  change (dec 15 1) with (15 # 10). change (dec 1 1) with (1 # 10).
  destruct (Q.max_spec (1 # 10) (x * 1)) as [[H1 ->] | [H1 ->]];
    destruct (Q.max_spec (1 # 10) (x * (15 # 10))) as [[H2 ->] | [H2 ->]];
    (split; [| split; [| intros H3]]); lra.
Qed.

Lemma hazard_record_pair (loc : string * Q * Q * string) (rp : Z) (g : rng) :
  (rp <> 0)%Z ->
  exists (h f : HazardRow) (g' : rng),
    hazard_record rng random_normal log10 "historical" loc rp g = Returned (h, g')
    /\ hazard_record rng random_normal log10 "rcp85" loc rp g = Returned (f, g')
    /\ rcp85_of_historical h f.
Proof.
  intros Hrp. unfold hazard_record.
  destruct loc as [[[location lat] lon] loc_type].
  destruct (random_normal 0 (dec 2 1) g) as [noise g'].
  destruct (Z.eqb_spec rp 0) as [|_]; [contradiction |].
  do 3 eexists. split; [reflexivity |]. split; [reflexivity |].
  unfold rcp85_of_historical, raw_intensity. simpl.
  do 3 (split; [reflexivity |]). apply floor_scaling.
Qed.

Lemma for_return_periods_pair (loc : string * Q * Q * string)
    (return_periods : list Z) :
  Forall (fun rp => (rp <> 0)%Z) return_periods ->
  forall (data_h data_f : list HazardRow) (g : rng),
    Forall2 rcp85_of_historical data_h data_f ->
    exists (rows_h rows_f : list HazardRow) (g' : rng),
      for_return_periods rng random_normal log10 "historical" loc return_periods
        data_h g = Returned (rows_h, g')
      /\ for_return_periods rng random_normal log10 "rcp85" loc return_periods
           data_f g = Returned (rows_f, g')
      /\ Forall2 rcp85_of_historical rows_h rows_f.
Proof.
  induction 1 as [|rp rest Hrp _ IH]; intros data_h data_f g Hdata; simpl.
  - do 3 eexists. split; [reflexivity |]. split; [reflexivity | exact Hdata].
  - destruct (hazard_record_pair loc rp g Hrp) as [h [f [g' [-> [-> Hhf]]]]].
    simpl. apply IH. apply Forall2_app; [exact Hdata |].
    constructor; [exact Hhf | constructor].
Qed.

Lemma for_locations_pair (locs : list (string * Q * Q * string))
    (return_periods : list Z) :
  Forall (fun rp => (rp <> 0)%Z) return_periods ->
  forall (data_h data_f : list HazardRow) (g : rng),
    Forall2 rcp85_of_historical data_h data_f ->
    exists (rows_h rows_f : list HazardRow) (g' : rng),
      for_locations rng random_normal log10 "historical" locs return_periods
        data_h g = Returned (rows_h, g')
      /\ for_locations rng random_normal log10 "rcp85" locs return_periods
           data_f g = Returned (rows_f, g')
      /\ Forall2 rcp85_of_historical rows_h rows_f.
Proof.
  intros Hrps. induction locs as [|loc rest IH]; intros data_h data_f g Hdata; simpl.
  - do 3 eexists. split; [reflexivity |]. split; [reflexivity | exact Hdata].
  - destruct (for_return_periods_pair loc return_periods Hrps data_h data_f g Hdata)
      as [rows_h [rows_f [g' [-> [-> Hrows]]]]].
    simpl. apply IH. exact Hrows.
Qed.

(** C7 (amended).  Started from the same state of the random generator,
    the simulated tables under "historical" and under "rcp85" have the
    same places, return periods and annual probabilities, record by
    record.  The intensity under "rcp85" lies between the one under
    "historical" and 1.5 times it, and it is 1.5 times it wherever the
    intensity under "historical" is above the floor of 0.1 m. *)
Theorem rcp85_scales_unfloored_intensity (return_periods : list Z) (g : rng) :
  Forall (fun rp => (rp <> 0)%Z) return_periods ->
  exists (rows_h rows_f : list HazardRow) (g' : rng),
    get_flood_hazard_malaysia rng random_normal log10 "historical"
      return_periods g = Returned (rows_h, g')
    /\ get_flood_hazard_malaysia rng random_normal log10 "rcp85"
         return_periods g = Returned (rows_f, g')
    /\ Forall2 rcp85_of_historical rows_h rows_f.
Proof.
  intros Hrps. unfold get_flood_hazard_malaysia.
  apply for_locations_pair; [exact Hrps | constructor].
Qed.

End Simulated.

Lemma rcp85_scales_unfloored_intensity_witness :
  exists (rows_h rows_f : list HazardRow) (g' : list Q),
    get_flood_hazard_malaysia (list Q) next_draw log10_floor "historical"
      [10; 25; 50; 100]%Z low_draws = Returned (rows_h, g')
    /\ get_flood_hazard_malaysia (list Q) next_draw log10_floor "rcp85"
         [10; 25; 50; 100]%Z low_draws = Returned (rows_f, g')
    /\ Forall2 rcp85_of_historical rows_h rows_f.
Proof.
  apply (rcp85_scales_unfloored_intensity (list Q) next_draw log10_floor
           [10; 25; 50; 100]%Z low_draws).
  repeat constructor; discriminate.
Defined.

End ClimadaFacts.

(** ** Facts about the linear interpolation *)

Module ScipyFacts.

Import Scipy DamageCalculator.
Local Open Scope list_scope.
Local Open Scope Q_scope.

Lemma combine_fst_snd (pts : list (Q * Q)) :
  combine (map fst pts) (map snd pts) = pts.
Proof.
  induction pts as [|[x y] pts IH]; simpl; [reflexivity | now rewrite IH].
Qed.

Lemma nth_0_map {A : Type} (f : A -> Q) (l : list A) (d : A) :
  nth 0 (map f l) (f d) = f (nth 0 l d).
Proof. destruct l; reflexivity. Qed.

Lemma last_map {A : Type} (f : A -> Q) (l : list A) (d : A) :
  List.last (map f l) (f d) = f (List.last l d).
Proof.
  induction l as [|a [|b l] IH]; try reflexivity.
  exact IH.
Qed.

(** The stable sort leaves a table in increasing depth as it is. *)
Lemma sort_points_increasing (pts : list (Q * Q)) :
  increasing_depths pts -> sort_points pts = pts.
Proof.
  unfold sort_points.
  induction 1 as [|p pts Hs IH Hp]; simpl; [reflexivity |].
  rewrite IH.
  destruct pts as [|q pts]; simpl; [reflexivity |].
  inversion Hp as [|? ? Hpq _]; subst.
  destruct (Qle_bool (fst p) (fst q)) eqn:E; [reflexivity |].
  assert (fst p <= fst q) as Hle by lra.
  apply Qle_bool_iff in Hle. congruence.
Qed.

(** In a table in increasing depth the first depth is the least and the
    last depth the greatest. *)
Lemma increasing_first_least (p : Q * Q) (pts : list (Q * Q)) :
  increasing_depths (p :: pts) -> Forall (fun q => fst p <= fst q) (p :: pts).
Proof.
  intros H. inversion H as [|? ? _ Hp]; subst.
  constructor; [lra |].
  eapply List.Forall_impl; [| exact Hp]. simpl. intros q Hq. lra.
Qed.

Lemma increasing_last_greatest (pts : list (Q * Q)) (d : Q * Q) :
  increasing_depths pts ->
  Forall (fun q => fst q <= fst (List.last pts d)) pts.
Proof.
  induction 1 as [|p pts Hs IH Hp]; [constructor |].
  destruct pts as [|q pts].
  - constructor; [simpl; lra | constructor].
  - change (List.last (p :: q :: pts) d) with (List.last (q :: pts) d).
    constructor; [| exact IH].
    assert (Hin : In (List.last (q :: pts) d) (q :: pts)).
    { clear. revert q. induction pts as [|r pts IH]; intros q.
      - left. reflexivity.
      - right. apply (IH r). }
    rewrite List.Forall_forall in Hp. specialize (Hp _ Hin). lra.
Qed.

(** Between a depth below [x] and a depth that is not, two neighbours
    of the table enclose [x], and [searchsorted] points at the second. *)
Lemma bracket (x : Q) (pts : list (Q * Q)) :
  forall p0 : Q * Q,
    fst p0 < x ->
    Exists (fun q => x <= fst q) pts ->
    exists (pre post : list (Q * Q)) (lo hi : Q * Q),
      p0 :: pts = (pre ++ lo :: hi :: post)%list
      /\ fst lo < x /\ x <= fst hi
      /\ searchsorted (p0 :: pts) x = S (length pre).
Proof.
  induction pts as [|p1 pts IH]; intros p0 H0 Hex.
  - inversion Hex.
  - assert (E0 : Qle_bool x (fst p0) = false).
    { destruct (Qle_bool x (fst p0)) eqn:E; [| reflexivity].
      apply Qle_bool_iff in E. lra. }
    destruct (Qle_bool x (fst p1)) eqn:E1.
    + exists [], pts, p0, p1.
      pose proof (proj1 (Qle_bool_iff _ _) E1) as Hle.
      split; [reflexivity |]. split; [exact H0 |]. split; [exact Hle |].
      simpl. now rewrite E0, E1.
    + assert (H1 : fst p1 < x).
      { apply Qnot_le_lt. intros Hle. apply Qle_bool_iff in Hle. congruence. }
      assert (Hex' : Exists (fun q => x <= fst q) pts).
      { inversion Hex as [? ? Hq | ? ? Hq]; subst; [lra | exact Hq]. }
      destruct (IH p1 H1 Hex') as [pre [post [lo [hi [Hs [Hlo [Hhi Hk]]]]]]].
      exists (p0 :: pre), post, lo, hi.
      split; [| split; [exact Hlo | split; [exact Hhi |]]].
      * simpl. now rewrite Hs.
      * change (searchsorted (p0 :: p1 :: pts) x)
          with (if Qle_bool x (fst p0) then 0%nat
                else S (searchsorted (p1 :: pts) x)).
        rewrite E0, Hk. reflexivity.
Qed.

(** On such neighbours the linear formula is the line through them. *)
Lemma call_linear_bracket (x : Q) (pre post : list (Q * Q)) (lo hi : Q * Q) :
  searchsorted (pre ++ lo :: hi :: post) x = S (length pre) ->
  call_linear (pre ++ lo :: hi :: post) x == line_through lo hi x.
Proof.
  intros Hk. unfold call_linear. rewrite Hk.
  assert (Hclip : clip 1 (length (pre ++ lo :: hi :: post) - 1) (S (length pre))
                  = S (length pre)).
  { unfold clip. rewrite List.length_app. cbn [length]. lia. }
  rewrite Hclip.
  replace (S (length pre) - 1)%nat with (length pre) by lia.
  rewrite nth_middle.
  replace (pre ++ lo :: hi :: post)%list with ((pre ++ [lo]) ++ hi :: post)%list
    by (rewrite <- app_assoc; reflexivity).
  replace (S (length pre)) with (length (pre ++ [lo]))
    by (rewrite List.length_app; cbn [length]; lia).
  rewrite nth_middle.
  destruct lo as [x_lo y_lo], hi as [x_hi y_hi].
  unfold line_through. simpl. unfold Qdiv. ring.
Qed.


Lemma last_In (l : list (Q * Q)) (a d : Q * Q) : In (List.last (a :: l) d) (a :: l).
Proof.
  revert a. induction l as [|b l IH]; intros a; [left; reflexivity | right; apply IH].
Qed.

Lemma last_cons (l : list (Q * Q)) (a b d : Q * Q) :
  List.last (a :: b :: l) d = List.last (b :: l) d.
Proof. reflexivity. Qed.

(** With a point after the second neighbour, the last depth of the
    table lies beyond it. *)
Lemma increasing_not_last (pre post : list (Q * Q)) (lo hi q d : Q * Q) :
  increasing_depths (pre ++ lo :: hi :: q :: post) ->
  fst hi < fst (List.last (pre ++ lo :: hi :: q :: post) d).
Proof.
  induction pre as [|a pre IH]; intros H.
  - simpl app. rewrite !last_cons.
    inversion H as [|? ? Hs _]; subst. inversion Hs as [|? ? _ Hhi]; subst.
    rewrite List.Forall_forall in Hhi. apply Hhi, last_In.
  - inversion H as [|? ? Hs _]; subst.
    replace (List.last ((a :: pre) ++ lo :: hi :: q :: post) d)
      with (List.last (pre ++ lo :: hi :: q :: post) d).
    + apply IH, Hs.
    + simpl. destruct (pre ++ lo :: hi :: q :: post)%list eqn:E; [| reflexivity].
      destruct pre; discriminate E.
Qed.

Lemma increasing_first_below_last (p0 p1 : Q * Q) (pts : list (Q * Q)) (d : Q * Q) :
  increasing_depths (p0 :: p1 :: pts) ->
  fst p0 < fst (List.last (p0 :: p1 :: pts) d).
Proof.
  intros H. rewrite last_cons.
  inversion H as [|? ? _ Hp]; subst.
  rewrite List.Forall_forall in Hp. apply Hp, last_In.
Qed.

(** The line through two points passes through them. *)
Lemma line_through_hi (lo hi : Q * Q) (x : Q) :
  fst lo < fst hi -> x == fst hi -> line_through lo hi x == snd hi.
Proof.
  intros Hlt Hx. unfold line_through. rewrite Hx. field. lra.
Qed.

(** The linear formula on a table in increasing depth, for the depths
    of its range, the two boundary depths included. *)
Lemma call_linear_in_range (p0 p1 : Q * Q) (pts : list (Q * Q)) (x : Q) :
  increasing_depths (p0 :: p1 :: pts) ->
  fst p0 <= x <= fst (List.last (p0 :: p1 :: pts) (0, 0)) ->
  (x <= fst p0 -> call_linear (p0 :: p1 :: pts) x == snd p0)
  /\ (fst p0 < x ->
      exists (pre post : list (Q * Q)) (lo hi : Q * Q),
        p0 :: p1 :: pts = (pre ++ lo :: hi :: post)%list
        /\ fst lo < x /\ x <= fst hi
        /\ call_linear (p0 :: p1 :: pts) x == line_through lo hi x)
  /\ (fst (List.last (p0 :: p1 :: pts) (0, 0)) <= x ->
      call_linear (p0 :: p1 :: pts) x == snd (List.last (p0 :: p1 :: pts) (0, 0))).
Proof.
  intros Hinc [Hlo Hhi].
  pose proof (increasing_first_below_last p0 p1 pts (0, 0) Hinc) as Hfirst.
  assert (Hbr : fst p0 < x ->
      exists (pre post : list (Q * Q)) (lo hi : Q * Q),
        p0 :: p1 :: pts = (pre ++ lo :: hi :: post)%list
        /\ fst lo < x /\ x <= fst hi
        /\ call_linear (p0 :: p1 :: pts) x == line_through lo hi x).
  { intros H0.
    assert (Hex : Exists (fun q => x <= fst q) (p1 :: pts)).
    { apply List.Exists_exists. exists (List.last (p1 :: pts) (0, 0)).
      split; [apply last_In |]. rewrite last_cons in Hhi. exact Hhi. }
    destruct (bracket x (p1 :: pts) p0 H0 Hex)
      as [pre [post [lo [hi [Hs [H1 [H2 Hk]]]]]]].
    exists pre, post, lo, hi. split; [exact Hs |].
    split; [exact H1 |]. split; [exact H2 |].
    rewrite Hs in Hk |- *. now apply call_linear_bracket. }
  split; [| split; [exact Hbr |]].
  - intros Hx. unfold call_linear.
    assert (E : Qle_bool x (fst p0) = true) by now apply Qle_bool_iff.
    cbn [searchsorted]. rewrite E.
    assert (Hclip : clip 1 (length (p0 :: p1 :: pts) - 1) 0 = 1%nat).
    { unfold clip. cbn [length]. lia. }
    rewrite Hclip. cbn [nth Nat.sub].
    destruct p0 as [x0 y0], p1 as [x1 y1]. simpl in *.
    assert (Hz : x - x0 == 0) by lra.
    rewrite Hz. unfold Qdiv. ring.
  - intros Hx. destruct (Hbr ltac:(lra)) as [pre [post [lo [hi [Hs [H1 [H2 Hv]]]]]]].
    rewrite Hv. destruct post as [|q post].
    + rewrite Hs.
      replace (pre ++ [lo; hi])%list with ((pre ++ [lo]) ++ [hi])%list
        by (rewrite <- app_assoc; reflexivity).
      rewrite List.last_last.
      assert (Hle : fst hi <= fst (List.last (p0 :: p1 :: pts) (0, 0))).
      { pose proof (increasing_last_greatest _ (0, 0) Hinc) as Hall.
        rewrite List.Forall_forall in Hall. apply Hall.
        rewrite Hs. apply in_or_app. right. right. left. reflexivity. }
      apply line_through_hi; lra.
    + exfalso. rewrite Hs in Hinc.
      pose proof (increasing_not_last pre post lo hi q (0, 0) Hinc) as Hlt.
      rewrite <- Hs in Hlt. lra.
Qed.

End ScipyFacts.

(** ** Facts about the two damage calculators *)

Module DamageCalculatorFacts.

Import Scipy DamageCalculator EnhancedDamageCalculator Scenarios ScipyFacts.
Local Open Scope list_scope.
Local Open Scope Q_scope.

(** The interpolant built from the columns of a table in increasing
    depth holds the table as it is. *)
Lemma make_points (table : list (Q * Q)) (b : bool) (fill : Q * Q) :
  increasing_depths table ->
  points (make (map fst table) (map snd table) b fill) = table.
Proof.
  intros H. unfold make. simpl. rewrite combine_fst_snd.
  now apply sort_points_increasing.
Qed.

Lemma Qle_bool_false (a b : Q) : b < a -> Qle_bool a b = false.
Proof.
  intros H. destruct (Qle_bool a b) eqn:E; [| reflexivity].
  apply Qle_bool_iff in E. lra.
Qed.

Lemma Qle_bool_true (a b : Q) : a <= b -> Qle_bool a b = true.
Proof. apply Qle_bool_iff. Qed.

(** A call of that interpolant inside the range of the depths. *)
Lemma call_inside (p0 p1 : Q * Q) (pts : list (Q * Q)) (b : bool)
    (fill : Q * Q) (x : Q) :
  let table := p0 :: p1 :: pts in
  increasing_depths table ->
  fst p0 <= x <= fst (List.last table (0, 0)) ->
  call (make (map fst table) (map snd table) b fill) x
  = Returned (call_linear table x).
Proof.
  intros table Hinc [H1 H2]. unfold call.
  rewrite (make_points table b fill Hinc).
  change (nth 0 table (0, 0)) with p0.
  rewrite (Qle_bool_true _ _ H1), (Qle_bool_true _ _ H2). reflexivity.
Qed.

(** The calculator of damage_calculator.py on a table of at least two
    points in increasing depth. *)
Lemma interpolate_increasing (p0 p1 : Q * Q) (pts : list (Q * Q)) (depth : Q) :
  let table := p0 :: p1 :: pts in
  let last := List.last table (0, 0) in
  increasing_depths table ->
  (depth <= fst p0 ->
   _interpolate_damage_ratio table depth = Returned (snd p0))
  /\ (fst last <= depth ->
      _interpolate_damage_ratio table depth = Returned (snd last))
  /\ (fst p0 < depth < fst last ->
      exists (pre post : list (Q * Q)) (lo hi : Q * Q) (ratio : Q),
        table = pre ++ lo :: hi :: post
        /\ fst lo < depth /\ depth <= fst hi
        /\ _interpolate_damage_ratio table depth = Returned ratio
        /\ ratio == line_through lo hi depth).
Proof.
  intros table last Hinc.
  pose proof (increasing_first_below_last p0 p1 pts (0, 0) Hinc) as Hfirst.
  fold table in Hfirst. fold last in Hfirst.
  assert (Hlen : (len table <? 2)%Z = false).
  { apply Z.ltb_ge. unfold len, table. cbn [length]. lia. }
  assert (Hd0 : nth 0 (map fst table) 0 = fst p0) by reflexivity.
  assert (Hr0 : nth 0 (map snd table) 0 = snd p0) by reflexivity.
  assert (Hdn : List.last (map fst table) 0 = fst last)
    by apply (last_map fst table (0, 0)).
  assert (Hrn : List.last (map snd table) 0 = snd last)
    by apply (last_map snd table (0, 0)).
  unfold _interpolate_damage_ratio. rewrite Hlen, Hd0, Hr0, Hdn, Hrn.
  split; [| split].
  - intros H. now rewrite (Qle_bool_true _ _ H).
  - intros H. rewrite (Qle_bool_false depth (fst p0)) by lra.
    now rewrite (Qle_bool_true _ _ H).
  - intros [H1 H2].
    rewrite (Qle_bool_false depth (fst p0)) by lra.
    rewrite (Qle_bool_false (fst last) depth) by lra.
    assert (Hrange : fst p0 <= depth <= fst (List.last table (0, 0)))
      by (fold last; lra).
    destruct (call_linear_in_range p0 p1 pts depth Hinc Hrange)
      as [_ [Hbr _]].
    destruct (Hbr H1) as [pre [post [lo [hi [Hs [Hlo [Hhi Hv]]]]]]].
    exists pre, post, lo, hi, (call_linear table depth).
    split; [exact Hs |]. split; [exact Hlo |]. split; [exact Hhi |].
    split; [| exact Hv].
    now apply call_inside.
Qed.

(** *** The selection of [_get_damage_ratio] *)

Lemma in_country_or_default (c cc : string) :
  in_str c [cc; "DEFAULT"] = String.eqb c cc || String.eqb c "DEFAULT".
Proof. unfold in_str. cbn [existsb]. now rewrite orb_false_r. Qed.

(** The rows that the code calls [country_specific]. *)
Lemma country_specific_rows (rows : list DamageRow) (bt cc : string) :
  List.filter (fun r => String.eqb (country_code r) cc)
    (List.filter (fun r => String.eqb (building_type r) bt
                           && in_str (country_code r) [cc; "DEFAULT"]) rows)
  = rows_for rows bt cc.
Proof.
  unfold rows_for. induction rows as [|r rows IH]; [reflexivity |].
  cbn [List.filter]. rewrite in_country_or_default.
  destruct (String.eqb (building_type r) bt); cbn [andb]; [| exact IH].
  destruct (String.eqb (country_code r) cc) eqn:E; cbn [orb].
  - cbn [List.filter]. rewrite E. now f_equal.
  - destruct (String.eqb (country_code r) "DEFAULT"); [| exact IH].
    cbn [List.filter]. rewrite E. exact IH.
Qed.

(** Without a row of the building type for the country, the rows that
    the code calls [relevant_functions] are those under "DEFAULT". *)
Lemma relevant_rows_default (rows : list DamageRow) (bt cc : string) :
  rows_for rows bt cc = [] ->
  List.filter (fun r => String.eqb (building_type r) bt
                        && in_str (country_code r) [cc; "DEFAULT"]) rows
  = rows_for rows bt "DEFAULT".
Proof.
  unfold rows_for. induction rows as [|r rows IH]; [reflexivity |].
  cbn [List.filter]. rewrite in_country_or_default.
  destruct (String.eqb (building_type r) bt); cbn [andb]; [| exact IH].
  destruct (String.eqb (country_code r) cc); cbn [orb]; [discriminate |].
  intros H. destruct (String.eqb (country_code r) "DEFAULT"); [| exact (IH H)].
  f_equal. exact (IH H).
Qed.

(** The code interpolates on the rows that the query selects. *)
Lemma get_damage_ratio_selection (rows : list DamageRow) (bt cc : string)
    (depth : Q) :
  _get_damage_ratio rows depth bt cc
  = match selected_rows rows bt cc with
    | [] => Returned (Qmin 1 (depth * dec 3 1))
    | r :: rest =>
        let depths := map depth_m (r :: rest) in
        let ratios := map damage_ratio (r :: rest) in
        if (len depths =? 1)%Z then Returned (nth 0 ratios 0)
        else
          call (make depths ratios false (nth 0 ratios 0, List.last ratios 0))
            depth
    end.
Proof.
  unfold _get_damage_ratio, selected_rows. cbv zeta.
  rewrite country_specific_rows.
  destruct (rows_for rows bt cc) as [|s0 specific] eqn:E.
  - rewrite (relevant_rows_default rows bt cc E).
    destruct (rows_for rows bt "DEFAULT"); reflexivity.
  - destruct (List.filter
                (fun r => String.eqb (building_type r) bt
                          && in_str (country_code r) [cc; "DEFAULT"]) rows)
      as [|r0 relevant] eqn:R; [| reflexivity].
    pose proof (country_specific_rows rows bt cc) as H.
    rewrite R, E in H. discriminate H.
Qed.

Lemma columns_of_rows (rows : list DamageRow) :
  map depth_m rows = map fst (control_points rows)
  /\ map damage_ratio rows = map snd (control_points rows).
Proof.
  unfold control_points. rewrite !map_map. split; reflexivity.
Qed.

(** The calculator of enhanced_damage_calculator.py on any table: the
    answer is read off the rows that the query selects. *)
Lemma get_damage_ratio_selected (rows : list DamageRow) (bt cc : string)
    (depth : Q) :
  match control_points (selected_rows rows bt cc) with
  | [] => _get_damage_ratio rows depth bt cc = Returned (Qmin 1 (depth * dec 3 1))
  | [p] => _get_damage_ratio rows depth bt cc = Returned (snd p)
  | p0 :: p1 :: pts =>
      let table := p0 :: p1 :: pts in
      let last := List.last table (0, 0) in
      increasing_depths table ->
      exists ratio : Q,
        _get_damage_ratio rows depth bt cc = Returned ratio
        /\ (depth <= fst p0 -> ratio == snd p0)
        /\ (fst last <= depth -> ratio == snd last)
        /\ (fst p0 < depth < fst last ->
            exists (pre post : list (Q * Q)) (lo hi : Q * Q),
              table = pre ++ lo :: hi :: post
              /\ fst lo < depth /\ depth <= fst hi
              /\ ratio == line_through lo hi depth)
  end.
Proof.
  rewrite get_damage_ratio_selection.
  destruct (selected_rows rows bt cc) as [|r0 sel]; [reflexivity |].
  cbv zeta.
  destruct (columns_of_rows (r0 :: sel)) as [-> ->].
  remember (control_points (r0 :: sel)) as table eqn:Et.
  destruct table as [|p0 [|p1 pts]].
  - discriminate Et.
  - reflexivity.
  - intros Hinc.
    assert (Hlen : (len (map fst (p0 :: p1 :: pts)) =? 1)%Z = false).
    { apply Z.eqb_neq. unfold len. cbn [length map]. lia. }
    rewrite Hlen.
    set (table := p0 :: p1 :: pts) in *.
    set (last := List.last table (0, 0)).
    assert (Hr0 : nth 0 (map snd table) 0 = snd p0) by reflexivity.
    assert (Hrn : List.last (map snd table) 0 = snd last)
      by apply (last_map snd table (0, 0)).
    rewrite Hr0, Hrn.
    pose proof (increasing_first_below_last p0 p1 pts (0, 0) Hinc) as Hfirst.
    fold table in Hfirst. fold last in Hfirst.
    destruct (Qlt_le_dec depth (fst p0)) as [Hb | Hb].
    { (* below the range: the fill value of that side *)
      exists (snd p0). split.
      - unfold call. rewrite (make_points table false _ Hinc).
        change (nth 0 table (0, 0)) with p0.
        now rewrite (Qle_bool_false _ _ Hb).
      - split; [reflexivity |]. split; intros; lra. }
    destruct (Qlt_le_dec (fst last) depth) as [Ha | Ha].
    { (* above the range *)
      exists (snd last). split.
      - unfold call. rewrite (make_points table false _ Hinc).
        change (nth 0 table (0, 0)) with p0.
        rewrite (Qle_bool_true _ _ Hb). fold last.
        now rewrite (Qle_bool_false _ _ Ha).
      - split; [intros; lra |]. split; [reflexivity | intros; lra]. }
    assert (Hrange : fst p0 <= depth <= fst (List.last table (0, 0)))
      by (fold last; lra).
    exists (call_linear table depth). split.
    + now apply call_inside.
    + destruct (call_linear_in_range p0 p1 pts depth Hinc Hrange)
        as [H1 [H2 H3]].
      split; [exact H1 |]. split; [exact H3 |].
      intros [H4 _]. exact (H2 H4).
Qed.

(** The rows selected carry the building type asked for, and all of
    them the country code asked for or all of them "DEFAULT". *)
Lemma selected_rows_match (rows : list DamageRow) (bt cc : string) :
  Forall (fun r => In r rows /\ building_type r = bt)
         (selected_rows rows bt cc)
  /\ (Forall (fun r => country_code r = cc) (selected_rows rows bt cc)
      \/ Forall (fun r => country_code r = "DEFAULT") (selected_rows rows bt cc)).
Proof.
  assert (H : forall c,
             Forall (fun r => In r rows /\ building_type r = bt
                              /\ country_code r = c) (rows_for rows bt c)).
  { intros c. apply List.Forall_forall. intros r Hr.
    unfold rows_for in Hr. apply filter_In in Hr. destruct Hr as [Hin Hr].
    apply andb_prop in Hr. destruct Hr as [Hb Hc].
    apply String.eqb_eq in Hb. apply String.eqb_eq in Hc. now repeat split. }
  unfold selected_rows.
  destruct (rows_for rows bt cc) as [|s0 specific] eqn:E.
  - split; [| right]; (eapply List.Forall_impl; [| exact (H "DEFAULT")]);
      cbv beta; tauto.
  - rewrite <- E. split; [| left]; (eapply List.Forall_impl; [| exact (H cc)]);
      cbv beta; tauto.
Qed.

(** C4 as stated fails on two of its clauses.  On short functions: the
    enhanced calculator returns the ratio of the only control point of
    a one-point function, and min(1, 0.3 * depth) when there is no
    control point at all; it raises nothing.  On the minimum depth: for
    the three points listed as (1, 0.5), (0, 0), (2, 1.0) and the depth
    -1, which is below the minimum depth 0, both calculators return
    0.5, the ratio of the first row, and not 0, the ratio at the
    minimum depth. *)
Lemma short_or_unsorted_function_breaks_claim :
  len (control_points one_row) = 1%Z
  /\ _get_damage_ratio one_row 3 "residential" "US" = Returned (dec 5 1)
  /\ (exists ratio : Q,
         _get_damage_ratio [] 3 "residential" "US" = Returned ratio
         /\ ratio == dec 9 1)
  /\ len unsorted_points = 3%Z
  /\ In (0, 0) unsorted_points
  /\ Forall (fun p => 0 <= fst p) unsorted_points
  /\ - (1) <= 0
  /\ _interpolate_damage_ratio unsorted_points (- (1)) = Returned (dec 5 1)
  /\ _get_damage_ratio unsorted_rows (- (1)) "residential" "US"
     = Returned (dec 5 1)
  /\ ~ dec 5 1 == 0.
Proof.
  split; [reflexivity |]. split; [reflexivity |].
  split; [eexists; split; reflexivity |].
  split; [reflexivity |]. split; [right; left; reflexivity |].
  split; [repeat constructor; vm_compute; discriminate |].
  split; [vm_compute; discriminate |].
  split; [vm_compute; reflexivity |]. split; [vm_compute; reflexivity |].
  intros H. vm_compute in H. discriminate H.
Qed.

(** C4 (amended).  For a damage function with at least two control
    points in strictly increasing depth (so that the first depth is the
    minimum and the last the maximum) and every flood depth, both
    calculators return the ratio of the first point at or below the
    minimum depth, the ratio of the last point at or above the maximum
    depth, and in between the value of the straight line through the
    two neighbouring control points that enclose the depth.  With fewer
    than two points [_interpolate_damage_ratio] raises CalculationError.
    [_get_damage_ratio] takes its damage function out of any table: the
    rows of the building type for the country when the table has any,
    and the rows of the building type under "DEFAULT" otherwise; it
    returns the ratio of the single point when one row is selected and
    min(1, 0.3 * depth) when none is, whatever else the table holds.
    The points (0, 0), (1, 0.5), (2, 1.0) give 0.75 at the depth 1.5 in
    both, for the second also as the "US" rows of a table that mixes
    them with rows of other types and countries. *)
Theorem depth_damage_interpolation :
  (forall (table : DamageFunction) (depth : Q),
      (len table < 2)%Z ->
      _interpolate_damage_ratio table depth
      = Raised (CalculationError "Función de daño insuficiente para interpolación"))
  /\ (forall (p0 p1 : Q * Q) (pts : list (Q * Q)) (depth : Q),
         let table := p0 :: p1 :: pts in
         let last := List.last table (0, 0) in
         increasing_depths table ->
         Forall (fun q => fst p0 <= fst q /\ fst q <= fst last) table
         /\ (depth <= fst p0 ->
             _interpolate_damage_ratio table depth = Returned (snd p0))
         /\ (fst last <= depth ->
             _interpolate_damage_ratio table depth = Returned (snd last))
         /\ (fst p0 < depth < fst last ->
             exists (pre post : list (Q * Q)) (lo hi : Q * Q) (ratio : Q),
               table = pre ++ lo :: hi :: post
               /\ fst lo < depth /\ depth <= fst hi
               /\ _interpolate_damage_ratio table depth = Returned ratio
               /\ ratio == line_through lo hi depth))
  /\ (forall (rows : list DamageRow) (bt cc : string) (depth : Q),
         (Forall (fun r => In r rows /\ building_type r = bt)
                 (selected_rows rows bt cc)
          /\ (Forall (fun r => country_code r = cc) (selected_rows rows bt cc)
              \/ Forall (fun r => country_code r = "DEFAULT")
                        (selected_rows rows bt cc)))
         /\ match control_points (selected_rows rows bt cc) with
            | [] =>
                _get_damage_ratio rows depth bt cc
                = Returned (Qmin 1 (depth * dec 3 1))
            | [p] => _get_damage_ratio rows depth bt cc = Returned (snd p)
            | p0 :: p1 :: pts =>
                let table := p0 :: p1 :: pts in
                let last := List.last table (0, 0) in
                increasing_depths table ->
                exists ratio : Q,
                  _get_damage_ratio rows depth bt cc = Returned ratio
                  /\ (depth <= fst p0 -> ratio == snd p0)
                  /\ (fst last <= depth -> ratio == snd last)
                  /\ (fst p0 < depth < fst last ->
                      exists (pre post : list (Q * Q)) (lo hi : Q * Q),
                        table = pre ++ lo :: hi :: post
                        /\ fst lo < depth /\ depth <= fst hi
                        /\ ratio == line_through lo hi depth)
            end)
  /\ (exists ratio : Q,
         _interpolate_damage_ratio three_points (dec 15 1) = Returned ratio
         /\ ratio == dec 75 2)
  /\ (exists ratio : Q,
         _get_damage_ratio three_rows (dec 15 1) "residential" "US"
         = Returned ratio
         /\ ratio == dec 75 2)
  /\ (control_points (selected_rows mixed_rows "residential" "US") = three_points
      /\ exists ratio : Q,
          _get_damage_ratio mixed_rows (dec 15 1) "residential" "US"
          = Returned ratio
          /\ ratio == dec 75 2)
  /\ (control_points (selected_rows mixed_rows "residential" "MX")
      = [(0, 0); (4, dec 8 1)]
      /\ exists ratio : Q,
          _get_damage_ratio mixed_rows 1 "residential" "MX" = Returned ratio
          /\ ratio == dec 2 1)
  /\ _get_damage_ratio mixed_rows 3 "commercial" "US" = Returned (dec 6 1)
  /\ (selected_rows mixed_rows "industrial" "US" = []
      /\ exists ratio : Q,
          _get_damage_ratio mixed_rows 1 "industrial" "US" = Returned ratio
          /\ ratio == dec 3 1).
Proof.
  split; [| split; [| split; [| split; [| split; [| split; [| split; [| split]]]]]]].
  - intros table depth H. unfold _interpolate_damage_ratio.
    destruct (Z.ltb_spec (len table) 2); [reflexivity | lia].
  - intros p0 p1 pts depth table last Hinc. split.
    + pose proof (increasing_first_least _ _ Hinc) as H1.
      pose proof (increasing_last_greatest _ (0, 0) Hinc) as H2.
      rewrite List.Forall_forall in *. intros q Hq.
      split; [apply H1 | apply H2]; exact Hq.
    + now apply interpolate_increasing.
  - intros rows bt cc depth. split.
    + apply selected_rows_match.
    + apply get_damage_ratio_selected.
  - eexists. split; [vm_compute; reflexivity | reflexivity].
  - eexists. split; [vm_compute; reflexivity | reflexivity].
  - split; [reflexivity |].
    eexists. split; [vm_compute; reflexivity | reflexivity].
  - split; [reflexivity |].
    eexists. split; [vm_compute; reflexivity | reflexivity].
  - vm_compute. reflexivity.
  - split; [reflexivity |].
    eexists. split; [vm_compute; reflexivity | reflexivity].
Qed.

Lemma depth_damage_interpolation_witness :
  (_interpolate_damage_ratio three_points (-1) = Returned 0
   /\ _interpolate_damage_ratio three_points 5 = Returned 1)
  /\ exists ratio : Q,
      _get_damage_ratio mixed_rows 9 "residential" "MX" = Returned ratio
      /\ ratio == dec 8 1.
Proof.
  pose proof (proj1 (proj2 depth_damage_interpolation)
                (0, 0) (1, dec 5 1) [(2, 1)] (-1)) as Hlow.
  pose proof (proj1 (proj2 depth_damage_interpolation)
                (0, 0) (1, dec 5 1) [(2, 1)] 5) as Hhigh.
  pose proof (proj2 (proj1 (proj2 (proj2 depth_damage_interpolation))
                       mixed_rows "residential" "MX" 9)) as Hsel.
  assert (Hinc : increasing_depths three_points).
  { repeat constructor. }
  destruct (Hlow Hinc) as [_ [H1 _]]. destruct (Hhigh Hinc) as [_ [_ [H2 _]]].
  split.
  - split; [apply H1 | apply H2]; vm_compute; discriminate.
  - change (control_points (selected_rows mixed_rows "residential" "MX"))
      with [(0, 0); (4, dec 8 1)] in Hsel.
    destruct Hsel as [ratio [Hr [_ [Hlast _]]]].
    + repeat constructor.
    + exists ratio. split; [exact Hr |]. apply Hlast. vm_compute. discriminate.
Defined.

End DamageCalculatorFacts.

(** ** The quoted values on binary64 *)

Module Binary64Facts.

Import Binary64.
#[local] Set Warnings "-inexact-float".
Local Open Scope float_scope.

(** Exposure 1e9 and the row (0.01, 0.9 m): the floats give 3,000,000
    and 0.003, also with the exposure negated. *)
Lemma expected_annual_impact_binary64 :
  expected_annual_impact 1e9 [(0.01, 0.9)] = (3000000, 0.003)
  /\ expected_annual_impact (-1e9) [(0.01, 0.9)] = (-3000000, 0.003).
Proof. split; vm_compute; reflexivity. Qed.

(** Return period 10, noise -0.45, country level: the floats give the
    floor 0.1 under the factor 1.0 and under the factor 1.5. *)
Lemma flood_intensity_binary64 :
  flood_intensity 1 (-0.45) 0.85 1 = 0.1
  /\ flood_intensity 1 (-0.45) 0.85 1.5 = 0.1
  /\ 1.5 * flood_intensity 1 (-0.45) 0.85 1 <> 0.1.
Proof.
  split; [vm_compute; reflexivity |]. split; [vm_compute; reflexivity |].
  intros H. vm_compute in H. discriminate H.
Qed.

(** The points (1, 0.5) and (2, 1.0) at the depth 1.5: the floats give
    0.75. *)
Lemma line_binary64 : line 1 0.5 2 1 1.5 = 0.75.
Proof. vm_compute. reflexivity. Qed.

End Binary64Facts.
